(** * HealthBot: a shallow embedding of [health_bot.py]

    The program is a terminal loop over two files: [symptoms_db.json], a
    dictionary from symptom name to remedies, severity class and advisory,
    and [health_log.csv], a table that [log_symptoms] re-reads, extends by
    one row and re-writes through pandas.

    - [Py] holds the Python built-ins the program calls ([int], list
      indexing, [str.join], [strftime], the [.1f] format).
    - [Pd] holds the fragment of pandas it calls ([read_csv], [concat],
      [to_csv], [value_counts], [groupby(...).mean()]).
    - [HealthBot] is the class itself, method by method, with the blocking
      [input()] calls turned into the control points of a step function. *)

From Stdlib Require Import List String Ascii ZArith Lia Bool Arith.
From Stdlib Require Import DecimalString.
From Stdlib Require DecimalPos DecimalZ.
From Stdlib Require Import Sorting.Sorted Sorting.Permutation.
Import ListNotations.

Local Open Scope string_scope.
Local Open Scope Z_scope.

(** ** Python built-ins *)

Module Py.

(** Exceptions that the program can raise. *)
Inductive exception :=
| ValueError
| IndexError
| KeyError
| TypeError
| FileNotFoundError.

(** *** [str]

    A [str] is held as its UTF-8 encoding, the encoding of the terminal
    and of both files: a character of the type [ascii] is one byte of it. *)
Definition code (c : ascii) : Z := Z.of_nat (nat_of_ascii c).

(** [Py_ISSPACE]: tab, line feed, vertical tab, form feed, carriage return
    and space. *)
Definition isspace (c : ascii) : bool :=
  ((9 <=? code c) && (code c <=? 13)) || (code c =? 32).

Definition digit_of (c : ascii) : option Z :=
  if (48 <=? code c) && (code c <=? 57) then Some (code c - 48) else None.

Definition isdigit (c : ascii) : bool :=
  match digit_of c with Some _ => true | None => false end.

(** The payload of a continuation byte [10xxxxxx]. *)
Definition continuation (c : ascii) : option Z :=
  if (128 <=? code c) && (code c <=? 191) then Some (code c - 128) else None.

(** A code point that takes no fewer bytes than it was written with, is
    no surrogate and lies in the range of Unicode. *)
Definition scalar (least cp : Z) : bool :=
  (least <=? cp) && (cp <=? 1114111) &&
  negb ((55296 <=? cp) && (cp <=? 57343)).

(** The code points of a [str].  [None]: the bytes are no UTF-8, and so
    stand for no [str]. *)
Fixpoint code_points (s : string) : option (list Z) :=
  match s with
  | EmptyString => Some []
  | String c0 r0 =>
      let b0 := code c0 in
      if b0 <? 128 then option_map (cons b0) (code_points r0)
      else if (192 <=? b0) && (b0 <=? 223) then
        match r0 with
        | String c1 r1 =>
            match continuation c1 with
            | Some x1 =>
                let cp := (b0 - 192) * 64 + x1 in
                if scalar 128 cp then option_map (cons cp) (code_points r1)
                else None
            | None => None
            end
        | EmptyString => None
        end
      else if (224 <=? b0) && (b0 <=? 239) then
        match r0 with
        | String c1 (String c2 r2) =>
            match continuation c1, continuation c2 with
            | Some x1, Some x2 =>
                let cp := ((b0 - 224) * 64 + x1) * 64 + x2 in
                if scalar 2048 cp then option_map (cons cp) (code_points r2)
                else None
            | _, _ => None
            end
        | _ => None
        end
      else if (240 <=? b0) && (b0 <=? 247) then
        match r0 with
        | String c1 (String c2 (String c3 r3)) =>
            match continuation c1, continuation c2, continuation c3 with
            | Some x1, Some x2, Some x3 =>
                let cp := (((b0 - 240) * 64 + x1) * 64 + x2) * 64 + x3 in
                if scalar 65536 cp then option_map (cons cp) (code_points r3)
                else None
            | _, _, _ => None
            end
        | _ => None
        end
      else None
  end.

(** [Py_UNICODE_ISSPACE] above ASCII. *)
Definition unicode_space (cp : Z) : bool :=
  existsb (Z.eqb cp) [133; 160; 5760; 8232; 8233; 8239; 8287; 12288] ||
  ((8192 <=? cp) && (cp <=? 8202)).

(** The zero of every run of ten decimal digits above ASCII (general
    category [Nd] of Unicode 14.0, the table of CPython 3.11): the digits
    of a run follow their zero in order. *)
Definition decimal_zeros : list Z :=
  [1632; 1776; 1984; 2406; 2534; 2662; 2790; 2918; 3046; 3174; 3302; 3430;
   3558; 3664; 3792; 3872; 4160; 4240; 6112; 6160; 6470; 6608; 6784; 6800;
   6992; 7088; 7232; 7248; 42528; 43216; 43264; 43472; 43504; 43600; 44016;
   65296; 66720; 68912; 69734; 69872; 69942; 70096; 70384; 70736; 70864;
   71248; 71360; 71472; 71904; 72016; 72784; 73040; 73120; 92768; 92864;
   93008; 120782; 120792; 120802; 120812; 120822; 123200; 123632; 125264;
   130032].

(** [Py_UNICODE_TODECIMAL]. *)
Definition unicode_decimal (cp : Z) : option Z :=
  match find (fun z => (z <=? cp) && (cp <=? z + 9)) decimal_zeros with
  | Some z => Some (cp - z)
  | None => None
  end.

Definition chr (n : Z) : ascii := ascii_of_nat (Z.to_nat n).

(** [_PyUnicode_TransformDecimalAndSpaceToASCII], one code point: below 127
    as it is, a space as the ASCII space, a decimal digit as its ASCII
    digit, anything else as a question mark, on which the literal breaks
    off. *)
Definition to_ascii (cp : Z) : ascii :=
  if cp <? 127 then chr cp
  else if unicode_space cp then chr 32
  else match unicode_decimal cp with
       | Some d => chr (48 + d)
       | None => chr 63
       end.

Definition transform (cps : list Z) : string :=
  fold_right (fun cp r => String (to_ascii cp) r) EmptyString cps.

Fixpoint lstrip (s : string) : string :=
  match s with
  | String c r => if isspace c then lstrip r else s
  | EmptyString => s
  end.

Fixpoint all_space (s : string) : bool :=
  match s with
  | String c r => isspace c && all_space r
  | EmptyString => true
  end.

(** The digits of an integer literal after its first one: a digit, or one
    underscore followed by a digit.  Returns the value read and what is left
    of the text. *)
Fixpoint int_digits (s : string) (acc : Z) : Z * string :=
  match s with
  | String c r =>
      match digit_of c with
      | Some d => int_digits r (10 * acc + d)
      | None =>
          if (code c =? 95) then
            match r with
            | String c' r' =>
                match digit_of c' with
                | Some d => int_digits r' (10 * acc + d)
                | None => (acc, s)
                end
            | EmptyString => (acc, s)
            end
          else (acc, s)
      end
  | EmptyString => (acc, s)
  end.

(** [sys.int_info.default_max_str_digits]: a literal of more digits is
    refused (CPython 3.11, and the security releases of 3.7 to 3.10). *)
Definition max_str_digits : Z := 4300.

(** The number of digits of the literal at the head of [s], underscores
    not counted. *)
Fixpoint literal_digits (s : string) : Z :=
  match s with
  | String c r =>
      if isdigit c then 1 + literal_digits r
      else if code c =? 95 then literal_digits r
      else 0
  | EmptyString => 0
  end.

Definition unsigned_int (s : string) : option Z :=
  match s with
  | String c r =>
      match digit_of c with
      | Some d =>
          if max_str_digits <? literal_digits s then None
          else
            let (v, rest) := int_digits r d in
            if all_space rest then Some v else None
      | None => None
      end
  | EmptyString => None
  end.

(** [PyLong_FromString] in base 10 on the transformed text: surrounding
    whitespace, an optional sign, digits with single underscores between
    them. *)
Definition long_from_string (s : string) : option Z :=
  match lstrip s with
  | String c r =>
      if code c =? 45 then option_map Z.opp (unsigned_int r)
      else if code c =? 43 then unsigned_int r
      else unsigned_int (String c r)
  | EmptyString => None
  end.

(** [int(s)] for a [str].  [None] is [ValueError]. *)
Definition int (s : string) : option Z :=
  match code_points s with
  | Some cps => long_from_string (transform cps)
  | None => None
  end.

(** [l[i]]: a negative index counts from the end; [None] is [IndexError]. *)
Definition index {A : Type} (l : list A) (i : Z) : option A :=
  let n := Z.of_nat (List.length l) in
  if (0 <=? i) && (i <? n) then nth_error l (Z.to_nat i)
  else if (- n <=? i) && (i <? 0) then nth_error l (Z.to_nat (i + n))
  else None.

(** [sep.join(l)]. *)
Definition join (sep : string) (l : list string) : string :=
  String.concat sep l.

(** [str(n)] for an [int].  CPython refuses to write an [int] of more than
    4300 digits; the program writes list positions and row counts only. *)
Definition str_of_int (z : Z) : string :=
  NilZero.string_of_int (Z.to_int z).

Definition str_of_nat (n : nat) : string := str_of_int (Z.of_nat n).

(** [enumerate(l, 1)]. *)
Fixpoint enumerate_from {A : Type} (i : nat) (l : list A) : list (nat * A) :=
  match l with
  | [] => []
  | x :: r => (i, x) :: enumerate_from (S i) r
  end.

(** A field of [strftime] padded with zeros to [w] characters. *)
Definition digit_char (d : nat) : ascii := ascii_of_nat (48 + d mod 10).

Fixpoint zero_padded (w : nat) (n : nat) : string :=
  match w with
  | O => ""
  | S w' => zero_padded w' (n / 10) ++ String (digit_char n) ""
  end.

(** What [datetime.now()] returns, to the second. *)
Record datetime := mk_datetime {
  year : nat; month : nat; day : nat;
  hour : nat; minute : nat; second : nat
}.

(** [now.strftime('%Y-%m-%d %H:%M:%S')]. *)
Definition strftime (t : datetime) : string :=
  zero_padded 4 (year t) ++ "-" ++ zero_padded 2 (month t) ++ "-" ++
  zero_padded 2 (day t) ++ " " ++ zero_padded 2 (hour t) ++ ":" ++
  zero_padded 2 (minute t) ++ ":" ++ zero_padded 2 (second t).

(** *** [float]

    A finite double is written [(m, e)] and stands for [m * 2^e].  Every
    operation below rounds to nearest, ties to even, at 53 significant bits.
    Exponent range is not modelled: the quotients of 64-bit integers that
    the program forms are far from both ends of it. *)
Definition float : Type := Z * Z.

(** [n / d] rounded to the nearest integer, ties to even ([0 < d]). *)
Definition rne (n d : Z) : Z :=
  let q := n / d in
  let r := n mod d in
  if 2 * r <? d then q
  else if d <? 2 * r then q + 1
  else if Z.even q then q else q + 1.

(** [a / (b * 2^e)] as a fraction of integers. *)
Definition scaled (a b e : Z) : Z * Z :=
  if 0 <=? e then (a, b * 2 ^ e) else (a * 2 ^ (- e), b).

(** The exponent [e] with [2^52 <= a / (b * 2^e) < 2^53] ([0 < a], [0 < b]). *)
Definition quotient_exponent (a b : Z) : Z :=
  let e0 := Z.log2 a - Z.log2 b - 52 in
  let (n, d) := scaled a b e0 in
  if n <? d * 2 ^ 52 then e0 - 1 else e0.

(** [a / b] in double precision, for integers [a] and [0 < b] that are
    themselves doubles. *)
Definition float_div (a b : Z) : float :=
  if a =? 0 then (0, 0)
  else
    let e := quotient_exponent (Z.abs a) b in
    let (n, d) := scaled (Z.abs a) b e in
    (Z.sgn a * rne n d, e).

(** The double nearest to an integer, as an integer. *)
Definition round53 (z : Z) : Z :=
  if Z.abs z <? 2 ^ 53 then z
  else
    let e := Z.log2 (Z.abs z) - 52 in
    Z.sgn z * rne (Z.abs z) (2 ^ e) * 2 ^ e.

(** [f"{x:.1f}"]: the exact value of the double rounded to one decimal,
    ties to even. *)
Definition tenths (x : float) : Z :=
  let (m, e) := x in
  let (n, d) := scaled (10 * Z.abs m) 1 (- e) in
  rne n d.

Definition format_1f (x : float) : string :=
  let t := tenths x in
  (if fst x <? 0 then "-" else "") ++
  str_of_int (t / 10) ++ "." ++ str_of_int (t mod 10).

End Py.

(** ** The pandas fragment *)

Module Pd.

(** A value held by a frame: a Python [int], a [str], or the missing value. *)
Inductive value :=
| VInt (z : Z)
| VStr (s : string)
| NaN.

(** The column types of the fragment.  A column that [read_csv] would make
    [float64], [bool] or [uint64] is outside it: [read_csv] below answers
    [None] there, and so does every operation that depends on it. *)
Inductive dtype := int64 | object.

Record Series := mk_series { dt : dtype; values : list value }.

(** One line of [health_log.csv] under its header
    [date,symptoms,severity,remedies_suggested]: the four fields as texts,
    after CSV unquoting. *)
Record row := mk_row {
  date : string;
  symptoms : string;
  severity : string;
  remedies_suggested : string
}.

Record DataFrame := mk_frame {
  col_date : Series;
  col_symptoms : Series;
  col_severity : Series;
  col_remedies : Series
}.

(** *** [read_csv]: how a text field is read *)

Definition str_in (s : string) (l : list string) : bool :=
  existsb (String.eqb s) l.

(** The default [na_values] common to all pandas versions. *)
Definition na_values : list string :=
  [""; "#N/A"; "#N/A N/A"; "#NA"; "-1.#IND"; "-1.#QNAN"; "-NaN"; "-nan";
   "1.#IND"; "1.#QNAN"; "<NA>"; "N/A"; "NA"; "NULL"; "NaN"; "n/a"; "nan";
   "null"].

Definition is_na (s : string) : bool := str_in s na_values.

(** Texts whose reading depends on the pandas version or on the rest of the
    column: ["None"] (a missing value from pandas 2.0 on) and the boolean
    literals. *)
Definition special_values : list string :=
  ["None"; "True"; "TRUE"; "true"; "False"; "FALSE"; "false"].

Fixpoint all_digits (s : string) : bool :=
  match s with
  | String c r => Py.isdigit c && all_digits r
  | EmptyString => true
  end.

Fixpoint digits_value (s : string) (acc : Z) : Z :=
  match s with
  | String c r =>
      match Py.digit_of c with
      | Some d => digits_value r (10 * acc + d)
      | None => acc
      end
  | EmptyString => acc
  end.

Definition unsigned_text (s : string) : option Z :=
  match s with
  | EmptyString => None
  | _ => if all_digits s then Some (digits_value s 0) else None
  end.

(** An integer field: an optional minus sign and decimal digits, nothing
    else. *)
Definition int_text (s : string) : option Z :=
  match s with
  | String c r =>
      if Py.code c =? 45 then option_map Z.opp (unsigned_text r)
      else unsigned_text s
  | EmptyString => None
  end.

Definition in_int64 (z : Z) : bool :=
  (- 2 ^ 63 <=? z) && (z <? 2 ^ 63).

(** Characters that occur in the numbers the parser accepts: digits, signs,
    the decimal point, the exponent mark, blanks, and the letters of [inf],
    [infinity] and [nan]. *)
Definition numeric_char (c : ascii) : bool :=
  Py.isdigit c || Py.isspace c ||
  existsb (Z.eqb (Py.code c))
    [43; 45; 46; 69; 101;
     73; 105; 78; 110; 70; 102; 84; 116; 89; 121; 65; 97].

Fixpoint has_text_char (s : string) : bool :=
  match s with
  | String c r => negb (numeric_char c) || has_text_char r
  | EmptyString => false
  end.

Inductive field_class :=
| IsInt (z : Z)   (* read as an [int64] when the whole column is *)
| IsNA            (* a missing value in any column *)
| IsText          (* not a number in any reading: forces [object] *)
| Unsure.         (* numeric-looking or special: not decided here *)

Definition classify (s : string) : field_class :=
  if is_na s then IsNA
  else match int_text s with
       | Some z => if in_int64 z then IsInt z else Unsure
       | None =>
           if has_text_char s && negb (str_in s special_values)
           then IsText else Unsure
       end.

Definition int_of_field (s : string) : option Z :=
  match classify s with IsInt z => Some z | _ => None end.

Definition is_text (s : string) : bool :=
  match classify s with IsText => true | _ => false end.

Fixpoint all_ints (cells : list string) : option (list Z) :=
  match cells with
  | [] => Some []
  | c :: r =>
      match int_of_field c, all_ints r with
      | Some z, Some zs => Some (z :: zs)
      | _, _ => None
      end
  end.

(** A field of an [object] column: a missing value or the text itself. *)
Definition object_value (s : string) : value :=
  if is_na s then NaN else VStr s.

(** Type inference on one column.  No rows: an empty [object] column.
    Integers only: [int64].  Some field that is text in every reading:
    [object], each field kept as written, provided no field is ["None"].
    Anything else is outside the fragment. *)
Definition read_col (cells : list string) : option Series :=
  match cells with
  | [] => Some (mk_series object [])
  | _ =>
      match all_ints cells with
      | Some zs => Some (mk_series int64 (map VInt zs))
      | None =>
          if existsb is_text cells && negb (existsb (String.eqb "None") cells)
          then Some (mk_series object (map object_value cells))
          else None
      end
  end.

(** [pd.read_csv(file)]. *)
Definition read_csv (rows : list row) : option DataFrame :=
  match read_col (map date rows), read_col (map symptoms rows),
        read_col (map severity rows), read_col (map remedies_suggested rows)
  with
  | Some d, Some s, Some v, Some r => Some (mk_frame d s v r)
  | _, _, _, _ => None
  end.

(** [pd.DataFrame([entry])] for a dictionary of four [str]. *)
Definition frame_of_entry (e : row) : DataFrame :=
  let one s := mk_series object [VStr s] in
  mk_frame (one (date e)) (one (symptoms e)) (one (severity e))
           (one (remedies_suggested e)).

Definition dtype_eqb (a b : dtype) : bool :=
  match a, b with
  | int64, int64 | object, object => true
  | _, _ => false
  end.

Definition concat_series (a b : Series) : Series :=
  mk_series (if dtype_eqb (dt a) (dt b) then dt a else object)
            (values a ++ values b).

(** [pd.concat([a, b], ignore_index=True)]. *)
Definition concat (a b : DataFrame) : DataFrame :=
  mk_frame (concat_series (col_date a) (col_date b))
           (concat_series (col_symptoms a) (col_symptoms b))
           (concat_series (col_severity a) (col_severity b))
           (concat_series (col_remedies a) (col_remedies b)).

(** [df.empty]. *)
Definition empty (df : DataFrame) : bool :=
  match values (col_date df) with [] => true | _ => false end.

(** *** [to_csv]: how a value is written *)

Definition render (v : value) : string :=
  match v with
  | VInt z => Py.str_of_int z
  | VStr s => s
  | NaN => ""
  end.

(** Fields free of control characters: the writer's quoting of carriage
    returns depends on the Python version, so other fields are outside the
    fragment. *)
Fixpoint printable (s : string) : bool :=
  match s with
  | String c r => (32 <=? Py.code c) && negb (Py.code c =? 127) && printable r
  | EmptyString => true
  end.

Fixpoint zip_rows (d s v r : list value) : list row :=
  match d, s, v, r with
  | d0 :: d', s0 :: s', v0 :: v', r0 :: r' =>
      mk_row (render d0) (render s0) (render v0) (render r0)
        :: zip_rows d' s' v' r'
  | _, _, _, _ => []
  end.

Definition row_printable (x : row) : bool :=
  printable (date x) && printable (symptoms x) &&
  printable (severity x) && printable (remedies_suggested x).

(** [df.to_csv(file, index=False)]: the rows the file holds afterwards. *)
Definition to_csv (df : DataFrame) : option (list row) :=
  let rows := zip_rows (values (col_date df)) (values (col_symptoms df))
                       (values (col_severity df)) (values (col_remedies df)) in
  if forallb row_printable rows then Some rows else None.

(** *** Aggregation *)

Definition value_eqb (a b : value) : bool :=
  match a, b with
  | VInt x, VInt y => x =? y
  | VStr s, VStr t => String.eqb s t
  | NaN, NaN => true
  | _, _ => false
  end.

Definition notna (v : value) : bool :=
  match v with NaN => false | _ => true end.

(** [str(v)] as an f-string prints a key. *)
Definition str_of_value (v : value) : string :=
  match v with
  | VInt z => Py.str_of_int z
  | VStr s => s
  | NaN => "nan"
  end.

Definition count (k : value) (l : list value) : nat :=
  List.length (filter (value_eqb k) l).

(** The distinct values of a list, in order of first appearance. *)
Fixpoint unique (l : list value) : list value :=
  match l with
  | [] => []
  | x :: r => x :: filter (fun y => negb (value_eqb x y)) (unique r)
  end.

(** A stable sort by decreasing count: an element goes in front of the
    first one whose count is not larger. *)
Fixpoint insert_desc (p : value * nat) (l : list (value * nat))
  : list (value * nat) :=
  match l with
  | [] => [p]
  | q :: r =>
      if (snd q <=? snd p)%nat then p :: l else q :: insert_desc p r
  end.

Fixpoint sort_desc (l : list (value * nat)) : list (value * nat) :=
  match l with
  | [] => []
  | p :: r => insert_desc p (sort_desc r)
  end.

(** [s.value_counts()]: missing values dropped, one entry per distinct
    value, largest count first, equal counts in order of first appearance
    (the stable sort of pandas 3; earlier versions sort the counts with an
    unstable sort, which can list equal counts in another order). *)
Definition value_counts (s : Series) : list (value * nat) :=
  let keys := filter notna (values s) in
  sort_desc (map (fun k => (k, count k keys)) (unique keys)).

(** Order of group keys: integers by value, strings by code point. *)
Definition value_leb (a b : value) : bool :=
  match a, b with
  | VInt x, VInt y => x <=? y
  | VStr s, VStr t => String.leb s t
  | VInt _, _ => true
  | _, VInt _ => false
  | VStr _, NaN => true
  | NaN, _ => false
  end.

Fixpoint insert_key (k : value) (l : list value) : list value :=
  match l with
  | [] => [k]
  | q :: r => if value_leb k q then k :: l else q :: insert_key k r
  end.

Fixpoint sort_keys (l : list value) : list value :=
  match l with
  | [] => []
  | k :: r => insert_key k (sort_keys r)
  end.

(** The values of [vals] on the rows whose key is [k]. *)
Fixpoint group (k : value) (keys vals : list value) : list value :=
  match keys, vals with
  | k' :: keys', v :: vals' =>
      if value_eqb k k' then v :: group k keys' vals'
      else group k keys' vals'
  | _, _ => []
  end.

(** The group sum in double precision, with the compensated summation of
    [group_mean]: [sumx] is the running sum and [comp] the compensation. *)
Fixpoint kahan (vals : list Z) (sumx comp : Z) : Z :=
  match vals with
  | [] => sumx
  | v :: r =>
      let y := Py.round53 (Py.round53 v - comp) in
      let t := Py.round53 (sumx + y) in
      let c := Py.round53 (Py.round53 (t - sumx) - y) in
      kahan r t c
  end.

Fixpoint ints_of (l : list value) : list Z :=
  match l with
  | VInt z :: r => z :: ints_of r
  | _ :: r => ints_of r
  | [] => []
  end.

(** The mean of a non-empty group of an [int64] column. *)
Definition mean (g : list value) : Py.float :=
  let zs := ints_of g in
  Py.float_div (kahan zs 0 0) (Py.round53 (Z.of_nat (List.length zs))).

Inductive result (A : Type) :=
| Ok (a : A)
| Raise (e : Py.exception).
Arguments Ok {A} a.
Arguments Raise {A} e.

Definition holds_text (v : value) : bool :=
  match v with VStr s => is_text s | _ => false end.

(** [df.groupby('symptoms')['severity'].mean()]: rows with a missing key
    dropped, groups in key order.  On an [int64] column each group gets its
    mean.  On an [object] column the aggregation raises ([TypeError] in
    pandas 2, [DataError] before) as soon as some group holds a text; an
    [object] column without such a group is outside the fragment. *)
Definition groupby_mean (keys vals : Series)
  : option (result (list (value * Py.float))) :=
  let present := sort_keys (unique (filter notna (values keys))) in
  match dt vals with
  | int64 =>
      Some (Ok (map (fun k => (k, mean (group k (values keys) (values vals))))
                    present))
  | object =>
      if existsb (fun k => existsb holds_text
                             (group k (values keys) (values vals))) present
      then Some (Raise Py.TypeError)
      else None
  end.

End Pd.

(** ** The class [HealthBot] *)

Module HealthBot.

(** An entry of [symptoms_db.json]. *)
Record symptom_info := mk_info {
  remedies : list string;
  severity : string;
  seek_medical_attention : string
}.

(** The dictionary [self.symptoms_db], in insertion order. *)
Definition db : Type := list (string * symptom_info).

Definition keys (d : db) : list string := map fst d.

Fixpoint lookup (d : db) (k : string) : option symptom_info :=
  match d with
  | [] => None
  | (k', v) :: r => if String.eqb k k' then Some v else lookup r k
  end.

(** The two files of the working directory; [None] is a missing file.  A
    file that exists holds well-formed content: the rows under the header
    for the log, the dictionary for the symptom database. *)
Record files := mk_files {
  health_log_file : option (list Pd.row);
  symptoms_db_file : option db
}.

(** The dictionary written by [initialize_files] (lines 27-48). *)
Definition default_symptoms_db : db :=
  [ ("fever",
     mk_info ["Rest well"; "Stay hydrated";
              "Take paracetamol if temperature is high"]
             "medium"
             "If temperature exceeds 102°F or persists for more than 3 days");
    ("headache",
     mk_info ["Rest in a quiet, dark room"; "Stay hydrated";
              "Try mild pain relievers"]
             "low"
             "If severe and persistent for more than 24 hours");
    ("cold",
     mk_info ["Rest"; "Drink warm fluids"; "Steam inhalation"]
             "low"
             "If symptoms worsen after 7 days");
    ("stomach_ache",
     mk_info ["Avoid heavy foods"; "Try ginger tea"; "Stay hydrated"]
             "medium"
             "If severe pain or accompanied by vomiting") ].

(** [initialize_files] (lines 19-50): each file is written only when it
    does not exist; the new log has the header and no row. *)
Definition initialize_files (fs : files) : files :=
  let log :=
    match health_log_file fs with
    | Some rows => Some rows
    | None => Some []
    end in
  let sdb :=
    match symptoms_db_file fs with
    | Some d => Some d
    | None => Some default_symptoms_db
    end in
  mk_files log sdb.

(** [load_symptoms_database] (lines 52-54). *)
Definition load_symptoms_database (fs : files) : option db :=
  symptoms_db_file fs.

(** Where the process is blocked in [input()], or how it ended. *)
Inductive control :=
| Menu                         (* line 63, in [display_menu] *)
| SymptomNumber                (* line 71, in [log_symptoms] *)
| Severity (symptom : string)  (* line 77, in [log_symptoms] *)
| Pause                        (* line 171, in [run] *)
| Exited (status : Z)          (* [sys.exit] *)
| Raised (e : Py.exception).   (* an exception nobody caught *)

Record bot := mk_bot {
  symptoms_db : db;
  disk : files;
  at_ : control
}.

(** What the process printed: a line of text, or a frame rendered by
    [to_string].  Colour codes and blank lines are left out. *)
Inductive output :=
| Print (s : string)
| PrintFrame (df : Pd.DataFrame).

(** The text of the prompt a control point shows. *)
Definition prompt (c : control) : option string :=
  match c with
  | Menu => Some "Choose an option (1-5): "
  | SymptomNumber => Some "Enter symptom number: "
  | Severity _ => Some "Rate severity (1-5, where 5 is most severe): "
  | Pause => Some "Press Enter to continue..."
  | Exited _ | Raised _ => None
  end.

Definition invalid_choice : output :=
  Print "Invalid choice. Please try again.".

(** [display_menu] (lines 56-63), up to its [input]. *)
Definition display_menu : list output :=
  [ Print "=== Health Alert Bot ===";
    Print "1. Log New Symptoms";
    Print "2. View Health History";
    Print "3. Get Health Insights";
    Print "4. Learn About Seasonal Illnesses";
    Print "5. Exit" ].

(** A handler returned to [run]: the loop goes on to its pause, line 171. *)
Definition returned (b : bot) (fs : files) (out : list output)
  : option (bot * list output) :=
  Some (mk_bot (symptoms_db b) fs Pause, out).

Definition raised (b : bot) (fs : files) (e : Py.exception)
  (out : list output) : option (bot * list output) :=
  Some (mk_bot (symptoms_db b) fs (Raised e), out).

(** [log_symptoms], lines 66-71: the numbered list, then the first prompt. *)
Definition log_symptoms_list (b : bot) : option (bot * list output) :=
  Some (mk_bot (symptoms_db b) (disk b) SymptomNumber,
        Print "Available Symptoms:" ::
        map (fun p => Print (Py.str_of_nat (fst p) ++ ". " ++ snd p))
            (Py.enumerate_from 1 (keys (symptoms_db b)))).

(** [log_symptoms], lines 70-77: the answer to "Enter symptom number". *)
Definition log_symptoms_choice (b : bot) (line : string)
  : option (bot * list output) :=
  match Py.int line with
  | None => returned b (disk b) [invalid_choice]            (* ValueError *)
  | Some choice =>
      match Py.index (keys (symptoms_db b)) (choice - 1) with
      | None => returned b (disk b) [invalid_choice]        (* IndexError *)
      | Some symptom =>
          Some (mk_bot (symptoms_db b) (disk b) (Severity symptom), [])
      end
  end.

(** The dictionary [new_entry] of lines 85-90. *)
Definition new_entry (now : Py.datetime) (symptom severity : string)
  (info : symptom_info) : Pd.row :=
  Pd.mk_row (Py.strftime now) symptom severity
            (Py.join "; " (remedies info)).

(** Lines 84-92: read the log, add the entry at the end, write the log. *)
Definition append_entry (rows : list Pd.row) (e : Pd.row)
  : option (list Pd.row) :=
  match Pd.read_csv rows with
  | Some df => Pd.to_csv (Pd.concat df (Pd.frame_of_entry e))
  | None => None
  end.

(** [log_symptoms], lines 77-101: the answer to "Rate severity". *)
Definition log_symptoms_severity (b : bot) (symptom severity : string)
  (now : Py.datetime) : option (bot * list output) :=
  match lookup (symptoms_db b) symptom with
  | None => raised b (disk b) Py.KeyError []
  | Some info =>
      match health_log_file (disk b) with
      | None => raised b (disk b) Py.FileNotFoundError []
      | Some rows =>
          match append_entry rows (new_entry now symptom severity info) with
          | None => None
          | Some rows' =>
              let fs := mk_files (Some rows') (symptoms_db_file (disk b)) in
              let advice :=
                Print "Suggested Remedies:" ::
                map (fun r => Print ("- " ++ r)) (remedies info) in
              match Py.int severity with
              | None => raised b fs Py.ValueError advice
              | Some n =>
                  if 4 <=? n then
                    returned b fs
                      (advice ++ [Print "⚠️ MEDICAL ATTENTION ADVISED:";
                                  Print (seek_medical_attention info)])%list
                  else returned b fs advice
              end
          end
      end
  end.

(** [view_history] (lines 103-114). *)
Definition view_history (b : bot) : option (bot * list output) :=
  match health_log_file (disk b) with
  | None => returned b (disk b) [Print "No health history found."]
  | Some rows =>
      match Pd.read_csv rows with
      | None => None
      | Some df =>
          if Pd.empty df then
            returned b (disk b) [Print "No entries in health log yet."]
          else
            returned b (disk b) [Print "Your Health History:"; PrintFrame df]
      end
  end.

(** Lines 129-132 and 135-138 of [get_insights]: the two printed lists. *)
Definition common_symptoms (df : Pd.DataFrame) : list output :=
  Print "Most Common Symptoms:" ::
  map (fun p => Print ("- " ++ Pd.str_of_value (fst p) ++ ": " ++
                       Py.str_of_nat (snd p) ++ " times"))
      (Pd.value_counts (Pd.col_symptoms df)).

Definition average_severity (avg : list (Pd.value * Py.float))
  : list output :=
  Print "Average Severity by Symptom:" ::
  map (fun p => Print ("- " ++ Pd.str_of_value (fst p) ++ ": " ++
                       Py.format_1f (snd p) ++ "/5"))
      avg.

(** [get_insights] (lines 116-138). *)
Definition get_insights (b : bot) : option (bot * list output) :=
  match health_log_file (disk b) with
  | None => returned b (disk b) [Print "No data available for insights."]
  | Some rows =>
      match Pd.read_csv rows with
      | None => None
      | Some df =>
          if Pd.empty df then
            returned b (disk b) [Print "No entries to analyze yet."]
          else
            let head := Print "Health Insights:" :: common_symptoms df in
            match Pd.groupby_mean (Pd.col_symptoms df) (Pd.col_severity df)
            with
            | None => None
            | Some (Pd.Raise e) => raised b (disk b) e head
            | Some (Pd.Ok avg) =>
                returned b (disk b) (head ++ average_severity avg)%list
            end
      end
  end.

Definition seasonal_info : list (string * list string) :=
  [ ("Winter", ["Common Cold"; "Flu"; "Sore Throat"]);
    ("Summer", ["Heat Exhaustion"; "Food Poisoning"; "Dehydration"]);
    ("Monsoon", ["Viral Fever"; "Dengue"; "Respiratory Infections"]) ].

(** [seasonal_illnesses] (lines 140-151). *)
Definition seasonal_illnesses (b : bot) : option (bot * list output) :=
  returned b (disk b)
    (Print "Common Seasonal Illnesses:" ::
     flat_map (fun p => Print (fst p ++ ":") ::
                        map (fun i => Print ("- " ++ i)) (snd p))
              seasonal_info).

(** One turn of the process: from the [input()] it is blocked in, given the
    line typed and the clock, to the next [input()] or to its end, with what
    it printed on the way.  [None]: the log is outside the pandas fragment.
    A process that ended reads nothing and prints nothing. *)
Definition step (b : bot) (line : string) (now : Py.datetime)
  : option (bot * list output) :=
  match at_ b with
  | Menu =>                                  (* [run], lines 155-169 *)
      if String.eqb line "1" then log_symptoms_list b
      else if String.eqb line "2" then view_history b
      else if String.eqb line "3" then get_insights b
      else if String.eqb line "4" then seasonal_illnesses b
      else if String.eqb line "5" then
        Some (mk_bot (symptoms_db b) (disk b) (Exited 0),
              [Print "Take care! Goodbye!"])
      else returned b (disk b) [invalid_choice]
  | SymptomNumber => log_symptoms_choice b line
  | Severity symptom => log_symptoms_severity b symptom line now
  | Pause =>                                 (* line 171, then line 155 *)
      Some (mk_bot (symptoms_db b) (disk b) Menu, display_menu)
  | Exited _ | Raised _ => Some (b, [])
  end.

(** [run] (lines 153-171) on the lines typed, each with the clock at the
    time it is read.  When the lines run out the process is left blocked at
    its prompt: the end of the input stream is not modelled. *)
Fixpoint run (b : bot) (typed : list (string * Py.datetime))
  : option (bot * list output) :=
  match typed with
  | [] => Some (b, [])
  | (line, now) :: rest =>
      match step b line now with
      | None => None
      | Some (b1, out1) =>
          match run b1 rest with
          | None => None
          | Some (b2, out2) => Some (b2, (out1 ++ out2)%list)
          end
      end
  end.

(** [HealthBot()] followed by the call of [run], up to the first prompt
    (lines 13-17 and 174-175). *)
Definition start (fs : files) : option (bot * list output) :=
  let fs1 := initialize_files fs in
  match load_symptoms_database fs1 with
  | None => None
  | Some d => Some (mk_bot d fs1 Menu, display_menu)
  end.

End HealthBot.

(** ** Vocabulary of the statements *)

(** The last element of a list. *)
Definition final {A : Type} (l : list A) : option A :=
  match rev l with
  | x :: _ => Some x
  | [] => None
  end.

(** A log inside the pandas fragment: [read_csv] types every column and
    no field holds a control character. *)
Definition in_fragment (rows : list Pd.row) : bool :=
  match Pd.read_csv rows with
  | Some _ => forallb Pd.row_printable rows
  | None => false
  end.


(** What reading a field and writing it again makes of its text: the same
    text, the decimal form of the integer it was read as, or nothing for a
    missing value. *)
Definition rewrites (old new : string) : Prop :=
  new = old \/
  (exists z, Pd.int_of_field old = Some z /\ new = Py.str_of_int z) \/
  (Pd.is_na old = true /\ new = "").

Definition row_rewrites (a b : Pd.row) : Prop :=
  rewrites (Pd.date a) (Pd.date b) /\
  rewrites (Pd.symptoms a) (Pd.symptoms b) /\
  rewrites (Pd.severity a) (Pd.severity b) /\
  rewrites (Pd.remedies_suggested a) (Pd.remedies_suggested b).

(** A field that pandas writes back as it found it: text in every reading,
    an integer already in the decimal form of [str], or the empty field. *)
Definition settled (text : string) : Prop :=
  Pd.is_text text = true \/
  (exists z, Pd.int_of_field text = Some z /\ Py.str_of_int z = text) \/
  text = "".

Definition row_settled (a : Pd.row) : Prop :=
  settled (Pd.date a) /\ settled (Pd.symptoms a) /\
  settled (Pd.severity a) /\ settled (Pd.remedies_suggested a).

(** What [read_csv] returns for a field: its text, the integer it denotes,
    or the missing value. *)
Definition loads (text : string) (v : Pd.value) : Prop :=
  v = Pd.VStr text \/
  (exists z, Pd.int_of_field text = Some z /\ v = Pd.VInt z) \/
  (Pd.is_na text = true /\ v = Pd.NaN).

(** What the history shows for a field: what [read_csv] returns for it,
    and the text itself when it is text in every reading. *)
Definition shown (text : string) (v : Pd.value) : Prop :=
  loads text v /\ (Pd.is_text text = true -> v = Pd.VStr text).




(** The states of the interaction loop, and the one a control point belongs
    to: the method in which the process is blocked.  The pause of line 171
    is part of the loop of [run] itself. *)
Inductive ui_state := MainMenu | LoggingSymptom | Terminated | Crashed.

Definition state_of (c : HealthBot.control) : ui_state :=
  match c with
  | HealthBot.Menu | HealthBot.Pause => MainMenu
  | HealthBot.SymptomNumber | HealthBot.Severity _ => LoggingSymptom
  | HealthBot.Exited _ => Terminated
  | HealthBot.Raised _ => Crashed
  end.

Definition menu_options : list string := ["1"; "2"; "3"; "4"; "5"].

(** The sum of the magnitudes of a list of integers. *)
Definition total_magnitude (zs : list Z) : Z :=
  fold_right (fun z acc => Z.abs z + acc) 0 zs.

Definition sum (zs : list Z) : Z := fold_right Z.add 0 zs.

(** The signed number of tenths that [format_1f] prints. *)
Definition signed_tenths (x : Py.float) : Z :=
  (if fst x <? 0 then -1 else 1) * Py.tenths x.

(** A clean working directory, and the clock used in the examples. *)
Definition clean : HealthBot.files := HealthBot.mk_files None None.

Definition noon : Py.datetime := Py.mk_datetime 2026 11 3 12 0 0.

(** A session from a clean working directory: the program is started and
    the lines are typed in order, each read at [noon]. *)
Definition session (typed : list string)
  : option (HealthBot.bot * list HealthBot.output) :=
  match HealthBot.start clean with
  | Some (b, out) =>
      match HealthBot.run b (map (fun line => (line, noon)) typed) with
      | Some (b', out') => Some (b', (out ++ out')%list)
      | None => None
      end
  | None => None
  end.

(** The log a session leaves on disk, and where the process stands. *)
Definition outcome (typed : list string)
  : option (HealthBot.control * option (list Pd.row)) :=
  match session typed with
  | Some (b, _) =>
      Some (HealthBot.at_ b, HealthBot.health_log_file (HealthBot.disk b))
  | None => None
  end.

Definition printed (typed : list string) : list HealthBot.output :=
  match session typed with
  | Some (_, out) => out
  | None => []
  end.

Definition fever_remedies : string :=
  "Rest well; Stay hydrated; Take paracetamol if temperature is high".

Definition headache_remedies : string :=
  "Rest in a quiet, dark room; Stay hydrated; Try mild pain relievers".

Definition stomach_ache_remedies : string :=
  "Avoid heavy foods; Try ginger tea; Stay hydrated".

(** What holds of a process that was started by [start]: the log exists, a
    symptom that was selected is a key of the dictionary, and an exception
    that ended the process is one of the two that user input can cause. *)
Definition sound (b : HealthBot.bot) : Prop :=
  HealthBot.health_log_file (HealthBot.disk b) <> None /\
  (forall s, HealthBot.at_ b = HealthBot.Severity s ->
             In s (HealthBot.keys (HealthBot.symptoms_db b))) /\
  (forall e, HealthBot.at_ b = HealthBot.Raised e ->
             e = Py.ValueError \/ e = Py.TypeError).

(** The dictionary a directory gives at start-up: the one on disk, or the
    default one when there is none. *)
Definition dictionary_of (fs : HealthBot.files) : HealthBot.db :=
  match HealthBot.symptoms_db_file fs with
  | Some d => d
  | None => HealthBot.default_symptoms_db
  end.

(** Lines that lead from a prompt to the exit without answering the
    severity prompt. *)
Definition way_out (c : HealthBot.control) : list string :=
  match c with
  | HealthBot.Menu => ["5"]
  | HealthBot.Pause => [""; "5"]
  | HealthBot.SymptomNumber => ["none"; ""; "5"]
  | _ => []
  end.

(** A text of ASCII characters below the delete character. *)
Fixpoint below_127 (s : string) : bool :=
  match s with
  | String c r => (Py.code c <? 127) && below_127 r
  | EmptyString => true
  end.



(** The ratings of the rows of the file whose symptom field is [name]. *)
Definition ratings_named (name : string) (rows : list Pd.row)
  (ratings : list Z) : list Z :=
  map snd
      (filter (fun p => if string_dec (Pd.symptoms (fst p)) name
                        then true else false)
              (combine rows ratings)).



(** A log with two symptoms, and the frame [read_csv] makes of it. *)
Definition two_symptom_log : list Pd.row :=
  [Pd.mk_row "2026-11-03 12:00:00" "fever" "2" fever_remedies;
   Pd.mk_row "2026-11-03 12:00:00" "headache" "5" headache_remedies;
   Pd.mk_row "2026-11-03 12:00:00" "fever" "4" fever_remedies].


(** [n] copies of a text, one after the other. *)
Fixpoint copies (n : nat) (s : string) : string :=
  match n with
  | O => EmptyString
  | S n' => s ++ copies n' s
  end.

(** The sum of the counts of a frequency table. *)
Definition total_count (vc : list (Pd.value * nat)) : nat :=
  fold_right (fun p acc => (snd p + acc)%nat) O vc.

(** The value of a decimal numeral read from the left with [acc] as the
    value of the digits already read. *)
Fixpoint uint_value (d : Decimal.uint) (acc : Z) : Z :=
  match d with
  | Decimal.Nil => acc
  | Decimal.D0 d' => uint_value d' (10 * acc)
  | Decimal.D1 d' => uint_value d' (10 * acc + 1)
  | Decimal.D2 d' => uint_value d' (10 * acc + 2)
  | Decimal.D3 d' => uint_value d' (10 * acc + 3)
  | Decimal.D4 d' => uint_value d' (10 * acc + 4)
  | Decimal.D5 d' => uint_value d' (10 * acc + 5)
  | Decimal.D6 d' => uint_value d' (10 * acc + 6)
  | Decimal.D7 d' => uint_value d' (10 * acc + 7)
  | Decimal.D8 d' => uint_value d' (10 * acc + 8)
  | Decimal.D9 d' => uint_value d' (10 * acc + 9)
  end.

(** * Properties *)

Import HealthBot.

(** ** The built-ins on small inputs *)

Example int_plain : Py.int "3" = Some 3.
Proof. reflexivity. Qed.

Example int_blank_sign_zero : Py.int " -03 " = Some (-3).
Proof. reflexivity. Qed.

Example int_underscore : Py.int "1_0" = Some 10.
Proof. reflexivity. Qed.

Example int_rejects :
  map Py.int [""; "high"; "4.5"; "1__0"; "_1"; "1_"; "- 1"; "0x10"]
  = [None; None; None; None; None; None; None; None].
Proof. reflexivity. Qed.

(** Decimal digits and blanks of any script are read, a literal of more
    than 4300 digits is refused, and so is a text that is no UTF-8. *)
Example int_unicode :
  map Py.int ["１"; "-٣"; " ４２ "; "１_２"; "－１"; "½"; "²"]
  = [Some 1; Some (-3); Some 42; Some 12; None; None; None].
Proof. vm_compute. reflexivity. Qed.

Example int_digit_limit :
  map Py.int [copies 4300 "0"; copies 4301 "0"; copies 4300 "0" ++ "1";
              "-" ++ copies 4300 "9"; copies 4301 "１"]
  = [Some 0; None; None; Some (- (10 ^ 4300 - 1)); None].
Proof. vm_compute. reflexivity. Qed.

Example int_not_utf8 :
  map Py.int [String (Py.chr 255) "1";
              String (Py.chr 192) (String (Py.chr 177) "")]
  = [None; None].
Proof. vm_compute. reflexivity. Qed.

(** At the symptom prompt: a fullwidth 1 selects the first symptom, and a
    1 behind 4300 zeros is refused. *)
Example symptom_prompt_reads_as_int :
  step (mk_bot default_symptoms_db (initialize_files clean) SymptomNumber)
       "１" noon
    = Some (mk_bot default_symptoms_db (initialize_files clean)
                   (Severity "fever"), []) /\
  step (mk_bot default_symptoms_db (initialize_files clean) SymptomNumber)
       (copies 4300 "0" ++ "1") noon
    = Some (mk_bot default_symptoms_db (initialize_files clean) Pause,
            [Print "Invalid choice. Please try again."]).
Proof. split; vm_compute; reflexivity. Qed.

Example index_from_the_end :
  map (Py.index ["a"; "b"; "c"; "d"]) [0; 3; 4; -1; -4; -5]
  = [Some "a"; Some "d"; None; Some "d"; Some "a"; None].
Proof. reflexivity. Qed.

Example strftime_noon : Py.strftime noon = "2026-11-03 12:00:00".
Proof. reflexivity. Qed.

Example float_third : Py.float_div 1 3 = (6004799503160661, -54).
Proof. reflexivity. Qed.

Example format_ties :
  map (fun p => Py.format_1f (Py.float_div (fst p) (snd p)))
      [(6, 2); (5, 4); (7, 20); (9, 20); (15, 4); (-1, 25); (0, 3)]
  = ["3.0"; "1.2"; "0.3"; "0.5"; "3.8"; "-0.0"; "0.0"].
Proof. reflexivity. Qed.

Example round53_ties :
  map Py.round53 [2 ^ 53 + 1; 2 ^ 53 + 3; - 2 ^ 53 - 3; 12]
  = [2 ^ 53; 2 ^ 53 + 4; - 2 ^ 53 - 4; 12].
Proof. reflexivity. Qed.

Example classify_fields :
  map Pd.classify ["3"; "03"; "-7"; ""; "NA"; "high"; "4.5"; "+3"; "None";
                   "2026-11-03 12:00:00"; "9223372036854775808"]
  = [Pd.IsInt 3; Pd.IsInt 3; Pd.IsInt (-7); Pd.IsNA; Pd.IsNA; Pd.IsText;
     Pd.Unsure; Pd.Unsure; Pd.Unsure; Pd.IsText; Pd.Unsure].
Proof. reflexivity. Qed.

Example value_counts_order :
  Pd.value_counts
    (Pd.mk_series Pd.object
       [Pd.VStr "a"; Pd.VStr "b"; Pd.NaN; Pd.VStr "b"; Pd.VStr "c";
        Pd.VStr "d"; Pd.VStr "d"])
  = [(Pd.VStr "b", 2%nat); (Pd.VStr "d", 2%nat); (Pd.VStr "a", 1%nat);
     (Pd.VStr "c", 1%nat)].
Proof. reflexivity. Qed.

Example history_of_empty_log :
  printed ["2"] = (display_menu ++ [Print "No entries in health log yet."])%list.
Proof. reflexivity. Qed.

(** ** Initialization *)



(** ** The main loop *)

Lemma not_an_option (line : string) :
  ~ In line menu_options ->
  String.eqb line "1" = false /\ String.eqb line "2" = false /\
  String.eqb line "3" = false /\ String.eqb line "4" = false /\
  String.eqb line "5" = false.
Proof.
  intros H. repeat split; apply String.eqb_neq; intros ->; apply H;
    simpl; tauto.
Qed.

Lemma ended_stays (b : bot) (typed : list (string * Py.datetime)) :
  prompt (at_ b) = None -> run b typed = Some (b, []).
Proof.
  intros Hend. induction typed as [|[line now] rest IH]; simpl.
  - reflexivity.
  - unfold step. destruct (at_ b); simpl in Hend; try discriminate;
      rewrite IH; reflexivity.
Qed.

Lemma exit_only_by_five (b b' : bot) (line : string) (now : Py.datetime)
  (out : list output) (status : Z) :
  step b line now = Some (b', out) ->
  at_ b' = Exited status ->
  prompt (at_ b) <> None ->
  at_ b = Menu /\ line = "5" /\ status = 0.
Proof.
  unfold step. intros Hstep Hexit Hlive.
  destruct (at_ b) eqn:Hat; simpl in Hlive; try congruence.
  - (* Menu *)
    destruct (String.eqb line "1") eqn:E1.
    { unfold log_symptoms_list in Hstep. inversion Hstep; subst.
      simpl in Hexit. discriminate. }
    destruct (String.eqb line "2") eqn:E2.
    { unfold view_history, returned in Hstep.
      destruct (health_log_file (disk b));
        [destruct (Pd.read_csv l); [destruct (Pd.empty d)|]|];
        inversion Hstep; subst; simpl in Hexit; discriminate. }
    destruct (String.eqb line "3") eqn:E3.
    { unfold get_insights, returned, raised in Hstep.
      destruct (health_log_file (disk b));
        [destruct (Pd.read_csv l);
         [destruct (Pd.empty d);
          [|destruct (Pd.groupby_mean _ _) as [[avg|e]|]]|]|];
        inversion Hstep; subst; simpl in Hexit; discriminate. }
    destruct (String.eqb line "4") eqn:E4.
    { unfold seasonal_illnesses, returned in Hstep.
      inversion Hstep; subst; simpl in Hexit; discriminate. }
    destruct (String.eqb line "5") eqn:E5.
    { apply String.eqb_eq in E5. inversion Hstep; subst.
      simpl in Hexit. inversion Hexit. auto. }
    unfold returned in Hstep. inversion Hstep; subst.
    simpl in Hexit. discriminate.
  - (* SymptomNumber *)
    unfold log_symptoms_choice, returned in Hstep.
    destruct (Py.int line); [destruct (Py.index _ _)|];
      inversion Hstep; subst; simpl in Hexit; discriminate.
  - (* Severity *)
    unfold log_symptoms_severity, returned, raised in Hstep.
    destruct (lookup _ _);
      [destruct (health_log_file (disk b));
       [destruct (append_entry _ _);
        [destruct (Py.int line); [destruct (4 <=? z)|]|]|]|];
      inversion Hstep; subst; simpl in Hexit; discriminate.
  - (* Pause *)
    inversion Hstep; subst. simpl in Hexit. discriminate.
Qed.

(** C8. From the menu, the line [5] ends the process with status 0 after
    the farewell; the process then shows no prompt, and whatever is typed
    afterwards is neither read nor answered.  Conversely a turn of a live
    process that ends in an exit started at the menu with the line [5], and
    the status is 0. *)
Theorem option_five_exits (d : db) (fs : files) (now : Py.datetime) :
  step (mk_bot d fs Menu) "5" now
    = Some (mk_bot d fs (Exited 0), [Print "Take care! Goodbye!"]) /\
  prompt (Exited 0) = None /\
  state_of (Exited 0) = Terminated /\
  (forall typed, run (mk_bot d fs (Exited 0)) typed
                   = Some (mk_bot d fs (Exited 0), [])) /\
  (forall b b' line t out status,
      step b line t = Some (b', out) ->
      at_ b' = Exited status ->
      prompt (at_ b) <> None ->
      at_ b = Menu /\ line = "5" /\ status = 0).
Proof.
  repeat split.
  - intros typed. apply ended_stays. reflexivity.
  - eapply exit_only_by_five; eauto.
  - eapply exit_only_by_five; eauto.
  - eapply exit_only_by_five; eauto.
Qed.

(** C9. From the menu, a line that is none of [1] to [5] prints the error
    message and leaves the process in the main loop, at its pause, with the
    dictionary and both files as they were: no handler is entered, nothing
    is raised, the process does not exit.  The next line, whatever it is,
    brings the menu and its prompt back. *)
Theorem invalid_menu_choice (d : db) (fs : files) (line : string)
  (now : Py.datetime) :
  ~ In line menu_options ->
  step (mk_bot d fs Menu) line now
    = Some (mk_bot d fs Pause, [Print "Invalid choice. Please try again."]) /\
  state_of Pause = MainMenu /\
  (forall line' now',
      step (mk_bot d fs Pause) line' now'
        = Some (mk_bot d fs Menu, display_menu)) /\
  prompt Menu = Some "Choose an option (1-5): ".
Proof.
  intros H. destruct (not_an_option line H) as (E1 & E2 & E3 & E4 & E5).
  repeat split.
  unfold step; simpl. rewrite E1, E2, E3, E4, E5. reflexivity.
Qed.

Lemma invalid_menu_choice_witness :
  step (mk_bot default_symptoms_db clean Menu) "7" noon
    = Some (mk_bot default_symptoms_db clean Pause,
            [Print "Invalid choice. Please try again."]) /\
  state_of Pause = MainMenu /\
  (forall line' now',
      step (mk_bot default_symptoms_db clean Pause) line' now'
        = Some (mk_bot default_symptoms_db clean Menu, display_menu)) /\
  prompt Menu = Some "Choose an option (1-5): ".
Proof.
  apply (invalid_menu_choice default_symptoms_db clean "7" noon).
  simpl. intros [H|[H|[H|[H|[H|H]]]]]; try discriminate H. exact H.
Defined.

(** ** Texts without control characters *)


Lemma printable_uint (d : Decimal.uint) :
  Pd.printable (NilEmpty.string_of_uint d) = true.
Proof.
  induction d; simpl; auto.
Qed.

Lemma printable_str_of_int (z : Z) : Pd.printable (Py.str_of_int z) = true.
Proof.
  unfold Py.str_of_int, NilZero.string_of_int.
  destruct (Z.to_int z) as [d|d]; unfold NilZero.string_of_uint;
    destruct d; simpl; auto using printable_uint.
Qed.





Lemma rewrites_printable (old new : string) :
  rewrites old new -> Pd.printable old = true -> Pd.printable new = true.
Proof.
  intros [->|[(z & _ & ->)|(_ & ->)]] H.
  - exact H.
  - apply printable_str_of_int.
  - reflexivity.
Qed.

Lemma row_rewrites_printable (a b : Pd.row) :
  row_rewrites a b -> Pd.row_printable a = true -> Pd.row_printable b = true.
Proof.
  unfold row_rewrites, Pd.row_printable.
  intros (Hd & Hs & Hv & Hr) H.
  repeat (apply andb_true_iff in H; destruct H as [H ?]).
  repeat (apply andb_true_iff; split); eauto using rewrites_printable.
Qed.

(** ** Reading a column and writing it again *)

Lemma all_ints_fields (cells : list string) (zs : list Z) :
  Pd.all_ints cells = Some zs ->
  Forall2 (fun c z => Pd.int_of_field c = Some z) cells zs.
Proof.
  revert zs. induction cells as [|c cells IH]; simpl; intros zs H.
  - inversion H. constructor.
  - destruct (Pd.int_of_field c) as [z|] eqn:Ec; [|discriminate].
    destruct (Pd.all_ints cells) as [zs'|]; [|discriminate].
    inversion H; subst. constructor; auto.
Qed.

Lemma read_col_cases (cells : list string) (s : Pd.Series) :
  Pd.read_col cells = Some s ->
  (exists zs, Pd.all_ints cells = Some zs /\
              s = Pd.mk_series Pd.int64 (map Pd.VInt zs)) \/
  s = Pd.mk_series Pd.object (map Pd.object_value cells).
Proof.
  unfold Pd.read_col. destruct cells as [|c cells].
  - intros H. inversion H. right. reflexivity.
  - destruct (Pd.all_ints (c :: cells)) as [zs|] eqn:E.
    + intros H. inversion H. left. exists zs. auto.
    + destruct (existsb Pd.is_text (c :: cells) &&
                negb (existsb (String.eqb "None") (c :: cells)));
        intros H; inversion H. right. reflexivity.
Qed.

Lemma read_col_loads (cells : list string) (s : Pd.Series) :
  Pd.read_col cells = Some s -> Forall2 loads cells (Pd.values s).
Proof.
  intros H. destruct (read_col_cases _ _ H) as [(zs & Hz & ->)| ->]; simpl.
  - apply all_ints_fields in Hz. clear H.
    induction Hz; simpl; constructor; auto.
    right. left. eauto.
  - clear H. induction cells as [|c cells IH]; simpl; constructor; auto.
    unfold Pd.object_value. destruct (Pd.is_na c) eqn:E.
    + right. right. auto.
    + left. reflexivity.
Qed.

Lemma loads_rewrites (text : string) (v : Pd.value) :
  loads text v -> rewrites text (Pd.render v).
Proof.
  intros [->|[(z & Hz & ->)|(Hna & ->)]]; simpl.
  - left. reflexivity.
  - right. left. eauto.
  - right. right. auto.
Qed.

Lemma zip_rows_app (d s v r : list Pd.value) (d0 s0 v0 r0 : Pd.value) :
  List.length s = List.length d -> List.length v = List.length d ->
  List.length r = List.length d ->
  Pd.zip_rows (d ++ [d0]) (s ++ [s0]) (v ++ [v0]) (r ++ [r0]) =
  (Pd.zip_rows d s v r ++
   [Pd.mk_row (Pd.render d0) (Pd.render s0) (Pd.render v0) (Pd.render r0)])%list.
Proof.
  revert s v r. induction d as [|x d IH]; intros s v r Hs Hv Hr;
    destruct s, v, r; simpl in *; try discriminate.
  - reflexivity.
  - rewrite IH by lia. reflexivity.
Qed.

Lemma zip_rows_rewrites (rows : list Pd.row) (d s v r : list Pd.value) :
  Forall2 loads (map Pd.date rows) d ->
  Forall2 loads (map Pd.symptoms rows) s ->
  Forall2 loads (map Pd.severity rows) v ->
  Forall2 loads (map Pd.remedies_suggested rows) r ->
  Forall2 row_rewrites rows (Pd.zip_rows d s v r).
Proof.
  revert d s v r. induction rows as [|x rows IH]; simpl;
    intros d s v r Hd Hs Hv Hr;
    inversion Hd; inversion Hs; inversion Hv; inversion Hr; subst; simpl.
  - constructor.
  - constructor; [|apply IH; assumption].
    unfold row_rewrites; simpl. auto using loads_rewrites.
Qed.

Lemma Forall2_printable (rows kept : list Pd.row) :
  Forall2 row_rewrites rows kept ->
  forallb Pd.row_printable rows = true ->
  forallb Pd.row_printable kept = true.
Proof.
  induction 1 as [|a b rows kept Hab _ IH]; simpl; intros H.
  - reflexivity.
  - apply andb_true_iff in H. destruct H as [Ha Hrows].
    rewrite (row_rewrites_printable _ _ Hab Ha). auto.
Qed.

(** Inside the fragment the append goes through: the file then holds one
    row for each row it held, in the same order and rewritten as pandas read
    it, and the new entry after them, exactly as submitted. *)
Lemma append_entry_fragment (rows : list Pd.row) (e : Pd.row) :
  in_fragment rows = true ->
  Pd.row_printable e = true ->
  exists kept,
    append_entry rows e = Some (kept ++ [e])%list /\
    Forall2 row_rewrites rows kept.
Proof.
  unfold in_fragment, append_entry, Pd.read_csv.
  destruct (Pd.read_col (map Pd.date rows)) as [d|] eqn:Ed; [|discriminate].
  destruct (Pd.read_col (map Pd.symptoms rows)) as [s|] eqn:Es;
    [|discriminate].
  destruct (Pd.read_col (map Pd.severity rows)) as [v|] eqn:Ev;
    [|discriminate].
  destruct (Pd.read_col (map Pd.remedies_suggested rows)) as [r|] eqn:Er;
    [|discriminate].
  intros Hrows He.
  apply read_col_loads in Ed, Es, Ev, Er.
  pose proof (zip_rows_rewrites rows _ _ _ _ Ed Es Ev Er) as Hkept.
  exists (Pd.zip_rows (Pd.values d) (Pd.values s) (Pd.values v) (Pd.values r)).
  split; [|exact Hkept].
  unfold Pd.to_csv, Pd.concat, Pd.frame_of_entry; simpl.
  apply Forall2_length in Ed, Es, Ev, Er. rewrite length_map in *.
  rewrite zip_rows_app by congruence. simpl.
  destruct e as [ed es ev er]; simpl.
  rewrite forallb_app. simpl.
  rewrite (Forall2_printable _ _ Hkept Hrows), He. reflexivity.
Qed.

(** ** The handler [log_symptoms] *)


Lemma lookup_key (d : db) (k : string) :
  In k (keys d) -> exists info, lookup d k = Some info.
Proof.
  unfold keys. induction d as [|[k' v] d IH]; simpl; [tauto|].
  intros [->|H].
  - rewrite String.eqb_refl. eauto.
  - destruct (String.eqb k k'); eauto.
Qed.


(** A number of the displayed list selects the entry at its place. *)
Lemma index_displayed {A : Type} (l : list A) (c : Z) :
  1 <= c <= Z.of_nat (List.length l) ->
  exists x, Py.index l (c - 1) = Some x /\
            nth_error l (Z.to_nat (c - 1)) = Some x.
Proof.
  intros Hc. unfold Py.index.
  assert (E : (0 <=? c - 1) && (c - 1 <? Z.of_nat (List.length l)) = true).
  { apply andb_true_iff. split; [apply Z.leb_le|apply Z.ltb_lt]; lia. }
  rewrite E.
  destruct (nth_error l (Z.to_nat (c - 1))) as [x|] eqn:Ex; eauto.
  apply nth_error_None in Ex. lia.
Qed.



(** C1. In a session from a clean directory, choosing option 1, then
    symptom 1, then typing [high] at the severity prompt ends the process
    with an uncaught [ValueError], raised by [int(severity)] on line 99
    after the row was written; no error message is printed and the menu
    does not come back. *)
Theorem non_numeric_severity_raises :
  outcome ["1"; "1"; "high"] =
    Some (Raised Py.ValueError,
          Some [Pd.mk_row "2026-11-03 12:00:00" "fever" "high"
                          fever_remedies]) /\
  ~ In invalid_choice (printed ["1"; "1"; "high"]) /\
  outcome ["1"; "1"; "high"; ""; "5"] = outcome ["1"; "1"; "high"].
Proof.
  repeat split.
  intros H. vm_compute in H.
  repeat (destruct H as [H|H]; [discriminate H|]). exact H.
Qed.

(** C2. In a session from a clean directory, choosing option 1 and typing
    [0] at the symptom prompt, outside the displayed numbers 1 to 4, is not
    answered by the error message: the severity prompt follows, and after a
    severity of [2] the log has gained a row for the last symptom. *)
Theorem symptom_zero_is_logged :
  outcome ["1"] = Some (SymptomNumber, Some []) /\
  outcome ["1"; "0"] = Some (Severity "stomach_ache", Some []) /\
  outcome ["1"; "0"; "2"] =
    Some (Pause,
          Some [Pd.mk_row "2026-11-03 12:00:00" "stomach_ache" "2"
                          stomach_ache_remedies]) /\
  ~ In invalid_choice (printed ["1"; "0"; "2"]).
Proof.
  repeat split.
  intros H. vm_compute in H.
  repeat (destruct H as [H|H]; [discriminate H|]). exact H.
Qed.




(** ** The shape of the texts that are logged *)

Lemma length_app (a b : string) :
  String.length (a ++ b) = (String.length a + String.length b)%nat.
Proof.
  induction a as [|c a IH]; simpl; congruence.
Qed.














Lemma loads_text (text : string) (v : Pd.value) :
  loads text v -> Pd.is_text text = true -> v = Pd.VStr text.
Proof.
  unfold Pd.is_text, Pd.int_of_field, Pd.classify.
  intros [->|[(z & Hz & ->)|(Hna & ->)]] H.
  - reflexivity.
  - unfold Pd.int_of_field, Pd.classify in Hz.
    destruct (Pd.is_na text); [discriminate|].
    destruct (Pd.int_text text) as [z'|];
      [destruct (Pd.in_int64 z')|];
      try discriminate H.
    destruct (Pd.has_text_char text && _); discriminate Hz.
  - rewrite Hna in H. discriminate.
Qed.



(** ** The log store: append, then load *)

Lemma is_text_not_int (text : string) :
  Pd.is_text text = true ->
  Pd.int_of_field text = None /\ Pd.is_na text = false.
Proof.
  unfold Pd.is_text, Pd.int_of_field, Pd.classify.
  destruct (Pd.is_na text); [discriminate|].
  destruct (Pd.int_text text) as [z|]; [destruct (Pd.in_int64 z)|];
    try discriminate.
  destruct (Pd.has_text_char text && _); [auto|discriminate].
Qed.

Lemma is_na_not_int (text : string) :
  Pd.is_na text = true -> Pd.int_of_field text = None.
Proof.
  unfold Pd.int_of_field, Pd.classify. now intros ->.
Qed.

Lemma rewrites_settled (old new : string) :
  rewrites old new -> settled old -> new = old.
Proof.
  intros [->|[(z & Hz & ->)|(Hna & ->)]] Hs; [reflexivity| |].
  - destruct Hs as [Ht|[(z' & Hz' & <-)| ->]].
    + apply is_text_not_int in Ht. destruct Ht as [Ht _]. congruence.
    + congruence.
    + discriminate Hz.
  - destruct Hs as [Ht|[(z' & Hz' & _)| ->]].
    + apply is_text_not_int in Ht. destruct Ht as [_ Ht]. congruence.
    + rewrite (is_na_not_int _ Hna) in Hz'. discriminate.
    + reflexivity.
Qed.

Lemma row_rewrites_settled (a b : Pd.row) :
  row_rewrites a b -> row_settled a -> b = a.
Proof.
  destruct a, b. unfold row_rewrites, row_settled. simpl.
  intros (H1 & H2 & H3 & H4) (S1 & S2 & S3 & S4).
  f_equal; eauto using rewrites_settled.
Qed.

(** C4, as stated, fails.  A session that logs fever with the severity
    typed as [03] leaves a row with the field [03]; logging headache next
    rewrites the file, and the first row then holds [3]: the earlier row
    did not stay as it was persisted. *)
Lemma append_rewrites_leading_zero :
  outcome ["1"; "1"; "03"] =
    Some (Pause,
          Some [Pd.mk_row "2026-11-03 12:00:00" "fever" "03" fever_remedies]) /\
  outcome ["1"; "1"; "03"; ""; "1"; "2"; "2"] =
    Some (Pause,
          Some [Pd.mk_row "2026-11-03 12:00:00" "fever" "3" fever_remedies;
                Pd.mk_row "2026-11-03 12:00:00" "headache" "2"
                          headache_remedies]) /\
  Pd.mk_row "2026-11-03 12:00:00" "fever" "3" fever_remedies <>
  Pd.mk_row "2026-11-03 12:00:00" "fever" "03" fever_remedies.
Proof.
  repeat split. discriminate.
Qed.

(** C4, amended.  On a log of the fragment, appending an entry leaves a
    file with one row for each row it had, in the same order, followed by
    the new entry exactly as submitted.  A field of an earlier row keeps its
    text, except that a field pandas read as an integer is written in the
    decimal form of that integer and a field it read as missing is written
    empty; a row whose four fields are settled is kept to the letter. *)
Theorem append_keeps_rows (rows : list Pd.row) (e : Pd.row) :
  in_fragment rows = true ->
  Pd.row_printable e = true ->
  exists kept,
    append_entry rows e = Some (kept ++ [e])%list /\
    List.length kept = List.length rows /\
    Forall2 row_rewrites rows kept /\
    Forall2 (fun a b => row_settled a -> b = a) rows kept.
Proof.
  intros Hrows He.
  destruct (append_entry_fragment rows e Hrows He) as (kept & Happ & Hkept).
  exists kept. repeat split; auto.
  - symmetry. exact (Forall2_length Hkept).
  - clear Happ Hrows. induction Hkept; constructor;
      auto using row_rewrites_settled.
Qed.

Lemma append_keeps_rows_witness :
  exists kept,
    append_entry
      [Pd.mk_row "2026-11-03 12:00:00" "fever" "03" fever_remedies]
      (Pd.mk_row "2026-11-03 12:00:00" "headache" "2" headache_remedies)
    = Some (kept ++
            [Pd.mk_row "2026-11-03 12:00:00" "headache" "2"
                       headache_remedies])%list /\
    List.length kept = 1%nat /\
    Forall2 row_rewrites
      [Pd.mk_row "2026-11-03 12:00:00" "fever" "03" fever_remedies] kept /\
    Forall2 (fun a b => row_settled a -> b = a)
      [Pd.mk_row "2026-11-03 12:00:00" "fever" "03" fever_remedies] kept.
Proof.
  apply (append_keeps_rows
           [Pd.mk_row "2026-11-03 12:00:00" "fever" "03" fever_remedies]
           (Pd.mk_row "2026-11-03 12:00:00" "headache" "2" headache_remedies));
    reflexivity.
Defined.





(** ** Frequencies *)

Lemma value_eqb_eq (a b : Pd.value) : Pd.value_eqb a b = true <-> a = b.
Proof.
  destruct a as [x|s|], b as [y|t|]; simpl; split; intros H;
    try discriminate; try reflexivity.
  - apply Z.eqb_eq in H. congruence.
  - inversion H. apply Z.eqb_refl.
  - apply String.eqb_eq in H. congruence.
  - inversion H. apply String.eqb_refl.
Qed.

Lemma value_eqb_refl (a : Pd.value) : Pd.value_eqb a a = true.
Proof. now apply value_eqb_eq. Qed.

Lemma unique_In (x : Pd.value) (l : list Pd.value) :
  In x (Pd.unique l) <-> In x l.
Proof.
  induction l as [|y l IH]; simpl; [tauto|].
  rewrite filter_In, IH. split.
  - intros [H|[H _]]; auto.
  - intros [H|H]; [auto|].
    destruct (Pd.value_eqb y x) eqn:E.
    + apply value_eqb_eq in E. auto.
    + right. auto.
Qed.

Lemma unique_NoDup (l : list Pd.value) : NoDup (Pd.unique l).
Proof.
  induction l as [|y l IH]; simpl; constructor.
  - rewrite filter_In. intros [_ H]. now rewrite value_eqb_refl in H.
  - now apply NoDup_filter.
Qed.

Lemma insert_desc_perm (p : Pd.value * nat) (l : list (Pd.value * nat)) :
  Permutation (Pd.insert_desc p l) (p :: l).
Proof.
  induction l as [|q l IH]; simpl; [reflexivity|].
  destruct (snd q <=? snd p)%nat; [reflexivity|].
  rewrite IH. apply perm_swap.
Qed.

Lemma sort_desc_perm (l : list (Pd.value * nat)) :
  Permutation (Pd.sort_desc l) l.
Proof.
  induction l as [|p l IH]; simpl; [reflexivity|].
  rewrite insert_desc_perm. now constructor.
Qed.






Lemma read_csv_not_empty (rows : list Pd.row) (df : Pd.DataFrame) :
  Pd.read_csv rows = Some df -> rows <> [] -> Pd.empty df = false.
Proof.
  unfold Pd.read_csv, Pd.empty.
  destruct (Pd.read_col (map Pd.date rows)) as [d|] eqn:Ed; [|discriminate].
  destruct (Pd.read_col (map Pd.symptoms rows)); [|discriminate].
  destruct (Pd.read_col (map Pd.severity rows)); [|discriminate].
  destruct (Pd.read_col (map Pd.remedies_suggested rows)); [|discriminate].
  intros H Hne. inversion H; subst; simpl.
  apply read_col_loads, Forall2_length in Ed. rewrite length_map in Ed.
  destruct (Pd.values d); [|reflexivity].
  destruct rows; [contradiction|discriminate].
Qed.


(** ** Rounding *)

Lemma rne_near (n d : Z) : 0 < d -> 2 * Z.abs (Py.rne n d * d - n) <= d.
Proof.
  intros Hd. unfold Py.rne.
  pose proof (Z.div_mod n d ltac:(lia)) as Hn.
  pose proof (Z.mod_pos_bound n d Hd) as Hr.
  destruct (2 * (n mod d) <? d) eqn:E1.
  - apply Z.ltb_lt in E1. lia.
  - apply Z.ltb_ge in E1. destruct (d <? 2 * (n mod d)) eqn:E2.
    + apply Z.ltb_lt in E2. lia.
    + apply Z.ltb_ge in E2. destruct (Z.even (n / d)); lia.
Qed.

Lemma rne_nonneg (n d : Z) : 0 <= n -> 0 < d -> 0 <= Py.rne n d.
Proof.
  intros Hn Hd. unfold Py.rne.
  pose proof (Z.div_pos n d Hn Hd).
  destruct (2 * (n mod d) <? d); [lia|].
  destruct (d <? 2 * (n mod d)); [lia|].
  destruct (Z.even (n / d)); lia.
Qed.

(** If the double [M * 2^-k] is [A / b] rounded, [A / b] is at least
    [2^52 * 2^-k], and [20 * A] is below [2^53], then rounding the double
    to tenths gives a nearest tenth of [A / b] itself: the error of the
    division is too small to carry the quotient across a midpoint. *)
Lemma tenths_of_rounded (A b K M t : Z) :
  0 < b -> 0 < K -> 0 <= A ->
  2 ^ 52 * b <= A * K ->
  20 * A < 2 ^ 53 ->
  2 * Z.abs (M * b - A * K) <= b ->
  2 * Z.abs (t * K - 10 * M) <= K ->
  2 * Z.abs (t * b - 10 * A) <= b.
Proof.
  change (2 ^ 52) with 4503599627370496.
  change (2 ^ 53) with 9007199254740992.
  intros Hb HK HA Hlow Hsmall HM Ht.
  assert (HKb : K <= 10 * b \/ 10 * b < K) by lia.
  destruct HKb as [HKb|HKb].
  - assert (A * K <= A * (10 * b)) by (apply Z.mul_le_mono_nonneg_l; lia).
    assert (4503599627370496 * b <= 10 * A * b) by lia.
    assert (4503599627370496 <= 10 * A) by nia.
    lia.
  - assert (HM' : - b <= 2 * (M * b - A * K) <= b) by lia.
    assert (Ht' : - K <= 2 * (t * K - 10 * M) <= K) by lia.
    clear HM Ht.
    assert (H1 : (2 * (t * K - 10 * M)) * b <= K * b)
      by (apply Z.mul_le_mono_nonneg_r; lia).
    assert (H3 : (- K) * b <= (2 * (t * K - 10 * M)) * b)
      by (apply Z.mul_le_mono_nonneg_r; lia).
    assert (H6 : (2 * (t * b) - 20 * A) * K <= K * b + 10 * b) by lia.
    assert (H7 : - (K * b) - 10 * b <= (2 * (t * b) - 20 * A) * K) by lia.
    assert (Hhi : ~ (b + 1 <= 2 * (t * b) - 20 * A)).
    { intros Hc.
      assert ((b + 1) * K <= (2 * (t * b) - 20 * A) * K)
        by (apply Z.mul_le_mono_nonneg_r; lia).
      lia. }
    assert (Hlo : ~ (2 * (t * b) - 20 * A <= - b - 1)).
    { intros Hc.
      assert ((2 * (t * b) - 20 * A) * K <= (- b - 1) * K)
        by (apply Z.mul_le_mono_nonneg_r; lia).
      lia. }
    lia.
Qed.

Lemma quotient_exponent_small (a b : Z) :
  0 < a -> 20 * a < 2 ^ 53 -> 0 < b ->
  Py.quotient_exponent a b < 0 /\
  2 ^ 52 * b <= a * 2 ^ (- Py.quotient_exponent a b).
Proof.
  intros Ha Hsmall Hb.
  pose proof (Z.log2_spec a Ha) as [Ha1 Ha2].
  pose proof (Z.log2_spec b Hb) as [Hb1 Hb2].
  pose proof (Z.log2_nonneg a) as Hla.
  pose proof (Z.log2_nonneg b) as Hlb.
  assert (Hla' : Z.log2 a < 49).
  { apply Z.log2_lt_pow2; [exact Ha|].
    change (2 ^ 53) with 9007199254740992 in Hsmall.
    change (2 ^ 49) with 562949953421312. lia. }
  unfold Py.quotient_exponent, Py.scaled.
  set (e0 := Z.log2 a - Z.log2 b - 52).
  assert (He0 : e0 < 0) by (unfold e0; lia).
  replace (0 <=? e0) with false by (symmetry; apply Z.leb_gt; exact He0).
  destruct (a * 2 ^ (- e0) <? b * 2 ^ 52) eqn:E.
  - split; [lia|].
    replace (- (e0 - 1)) with (53 + Z.log2 b - Z.log2 a) by (unfold e0; lia).
    set (P := 2 ^ (53 + Z.log2 b - Z.log2 a)).
    assert (HP : 0 < P) by (apply Z.pow_pos_nonneg; lia).
    assert (Hsplit : P * 2 ^ Z.log2 a = 2 ^ 52 * 2 ^ Z.succ (Z.log2 b)).
    { unfold P. rewrite <- !Z.pow_add_r by lia. f_equal. lia. }
    assert (2 ^ 52 * b <= 2 ^ 52 * 2 ^ Z.succ (Z.log2 b))
      by (apply Z.mul_le_mono_nonneg_l; lia).
    assert (P * 2 ^ Z.log2 a <= P * a)
      by (apply Z.mul_le_mono_nonneg_l; lia).
    lia.
  - apply Z.ltb_ge in E. split; [exact He0|]. lia.
Qed.

(** The mean that is printed is a nearest tenth of the exact quotient. *)
Lemma float_div_tenths (a b : Z) :
  0 < b -> 20 * Z.abs a < 2 ^ 53 ->
  2 * Z.abs (signed_tenths (Py.float_div a b) * b - 10 * a) <= b.
Proof.
  intros Hb Hsmall. unfold Py.float_div.
  destruct (a =? 0) eqn:Ea.
  - apply Z.eqb_eq in Ea. subst a.
    change (signed_tenths (0, 0)) with 0. lia.
  - apply Z.eqb_neq in Ea.
    assert (HA : 0 < Z.abs a) by lia.
    destruct (quotient_exponent_small (Z.abs a) b HA Hsmall Hb)
      as [He Hlow].
    set (e := Py.quotient_exponent (Z.abs a) b) in *.
    unfold Py.scaled.
    replace (0 <=? e) with false by (symmetry; apply Z.leb_gt; exact He).
    set (K := 2 ^ (- e)) in *.
    assert (HK : 0 < K) by (apply Z.pow_pos_nonneg; lia).
    set (M := Py.rne (Z.abs a * K) b).
    assert (HM0 : 0 <= M) by (apply rne_nonneg; nia).
    pose proof (rne_near (Z.abs a * K) b Hb) as HM. fold M in HM.
    unfold signed_tenths, Py.tenths, Py.scaled.
    cbn [fst].
    replace (0 <=? - e) with true by (symmetry; apply Z.leb_le; lia).
    assert (Habs : Z.abs (Z.sgn a * M) = M) by nia.
    rewrite Habs. replace (1 * 2 ^ (- e)) with K by (unfold K; lia).
    set (t := Py.rne (10 * M) K).
    pose proof (rne_near (10 * M) K HK) as Ht. fold t in Ht.
    assert (Ht0 : 0 <= t) by (apply rne_nonneg; lia).
    pose proof (tenths_of_rounded (Z.abs a) b K M t Hb HK
                  ltac:(lia) Hlow Hsmall HM Ht) as Hgoal.
    destruct (Z.sgn a * M <? 0) eqn:Es.
    + apply Z.ltb_lt in Es. assert (a < 0) by nia.
      replace (-1 * t * b - 10 * a) with (- (t * b - 10 * Z.abs a)) by lia.
      rewrite Z.abs_opp. exact Hgoal.
    + apply Z.ltb_ge in Es.
      assert (Hcases : 0 < a \/ (a < 0 /\ M = 0)) by nia.
      destruct Hcases as [Hpos|[Hneg HMz]].
      * replace (1 * t * b - 10 * a) with (t * b - 10 * Z.abs a) by lia.
        exact Hgoal.
      * assert (Hlow' : 2 ^ 52 * b <= Z.abs a * K) by exact Hlow.
        assert (0 < 2 ^ 52 * b) by (change (2 ^ 52) with 4503599627370496; lia).
        rewrite HMz in HM. lia.
Qed.

(** ** Mean severity *)

Lemma round53_small (z : Z) : Z.abs z < 2 ^ 53 -> Py.round53 z = z.
Proof.
  intros H. unfold Py.round53.
  now replace (Z.abs z <? 2 ^ 53) with true by (symmetry; now apply Z.ltb_lt).
Qed.

Lemma total_magnitude_nonneg (zs : list Z) : 0 <= total_magnitude zs.
Proof.
  induction zs as [|z zs IH]; simpl; lia.
Qed.

Lemma sum_magnitude (zs : list Z) : Z.abs (sum zs) <= total_magnitude zs.
Proof.
  induction zs as [|z zs IH]; simpl; lia.
Qed.

(** Below [2^53] every addition of the compensated sum is exact and the
    compensation stays null. *)
Lemma kahan_exact (zs : list Z) (s : Z) :
  Z.abs s + total_magnitude zs < 2 ^ 53 ->
  Pd.kahan zs s 0 = s + sum zs.
Proof.
  revert s. induction zs as [|z zs IH]; intros s H.
  - simpl. lia.
  - cbn [Pd.kahan]. cbn [total_magnitude sum fold_right] in *.
    fold (total_magnitude zs) in *. fold (sum zs).
    pose proof (total_magnitude_nonneg zs) as Hpos.
    rewrite (round53_small z) by lia.
    replace (z - 0) with z by lia.
    rewrite (round53_small z) by lia.
    rewrite (round53_small (s + z)) by lia.
    replace (s + z - s) with z by lia.
    rewrite (round53_small z) by lia.
    replace (z - z) with 0 by lia.
    rewrite (round53_small 0) by (change (2 ^ 53) with 9007199254740992; lia).
    rewrite IH by lia. lia.
Qed.



Lemma insert_key_perm (k : Pd.value) (l : list Pd.value) :
  Permutation (Pd.insert_key k l) (k :: l).
Proof.
  induction l as [|q l IH]; simpl; [reflexivity|].
  destruct (Pd.value_leb k q); [reflexivity|].
  rewrite IH. apply perm_swap.
Qed.

Lemma sort_keys_perm (l : list Pd.value) : Permutation (Pd.sort_keys l) l.
Proof.
  induction l as [|k l IH]; simpl; [reflexivity|].
  rewrite insert_key_perm. now constructor.
Qed.

(** The mean of a group whose magnitudes sum to less than [2^53 / 20]
    prints as a nearest tenth of the exact mean. *)
Lemma mean_near (g : list Pd.value) :
  Pd.ints_of g <> [] ->
  20 * total_magnitude (Pd.ints_of g) < 2 ^ 53 ->
  Z.of_nat (List.length (Pd.ints_of g)) < 2 ^ 53 ->
  2 * Z.abs (signed_tenths (Pd.mean g) * Z.of_nat (List.length (Pd.ints_of g))
             - 10 * sum (Pd.ints_of g))
    <= Z.of_nat (List.length (Pd.ints_of g)).
Proof.
  intros Hne Hmag Hlen. unfold Pd.mean.
  pose proof (total_magnitude_nonneg (Pd.ints_of g)) as Hpos.
  pose proof (sum_magnitude (Pd.ints_of g)) as Hsum.
  rewrite kahan_exact by (simpl; lia).
  rewrite round53_small by lia.
  replace (0 + sum (Pd.ints_of g)) with (sum (Pd.ints_of g)) by lia.
  apply float_div_tenths; [|lia].
  destruct (Pd.ints_of g); [contradiction|simpl; lia].
Qed.






Lemma all_ints_no_text (cells : list string) (zs : list Z) :
  Pd.all_ints cells = Some zs -> existsb Pd.is_text cells = false.
Proof.
  intros H. apply all_ints_fields in H.
  induction H as [|c z cells zs Hc _ IH]; simpl; [reflexivity|].
  rewrite IH, orb_false_r.
  destruct (Pd.is_text c) eqn:E; [|reflexivity].
  apply is_text_not_int in E. destruct E. congruence.
Qed.

(** The three ways a column is typed. *)
Lemma read_col_how (cells : list string) (s : Pd.Series) :
  Pd.read_col cells = Some s ->
  (exists zs, Pd.all_ints cells = Some zs /\
              s = Pd.mk_series Pd.int64 (map Pd.VInt zs)) \/
  (cells = [] /\ s = Pd.mk_series Pd.object []) \/
  (existsb Pd.is_text cells = true /\
   s = Pd.mk_series Pd.object (map Pd.object_value cells)).
Proof.
  unfold Pd.read_col. destruct cells as [|c cells].
  - intros H. inversion H. auto.
  - destruct (Pd.all_ints (c :: cells)) as [zs|] eqn:E.
    + intros H. inversion H. left. eauto.
    + destruct (existsb Pd.is_text (c :: cells)) eqn:Et; simpl;
        [|discriminate].
      destruct (negb _); [|discriminate].
      intros H. inversion H. auto.
Qed.








(** The means of a log with two symptoms, each over its own rows. *)
Example means_of_two_symptoms :
  get_insights
    (mk_bot default_symptoms_db
       (mk_files (Some two_symptom_log) (Some default_symptoms_db)) Menu) =
    Some (mk_bot default_symptoms_db
            (mk_files (Some two_symptom_log) (Some default_symptoms_db)) Pause,
          [Print "Health Insights:"; Print "Most Common Symptoms:";
           Print "- fever: 2 times"; Print "- headache: 1 times";
           Print "Average Severity by Symptom:";
           Print "- fever: 3.0/5"; Print "- headache: 5.0/5"]) /\
  ratings_named "fever" two_symptom_log [2; 5; 4] = [2; 4] /\
  ratings_named "headache" two_symptom_log [2; 5; 4] = [5].
Proof. repeat split; vm_compute; reflexivity. Qed.

(** ** The frequencies *)






(** ** Further properties of the handlers *)

(** At the symptom prompt, a line that [int] rejects, or a number above the
    length of the list, or one at or below its negation, is answered by the
    error message; the process goes to the pause of the loop with the
    dictionary and both files as they were. *)
Theorem invalid_symptom_number_aborts (b : bot) (line : string)
  (now : Py.datetime) :
  at_ b = SymptomNumber ->
  (Py.int line = None \/
   exists c, Py.int line = Some c /\
             (Z.of_nat (List.length (keys (symptoms_db b))) < c \/
              c <= - Z.of_nat (List.length (keys (symptoms_db b))))) ->
  step b line now =
    Some (mk_bot (symptoms_db b) (disk b) Pause,
          [Print "Invalid choice. Please try again."]).
Proof.
  intros Hat H. unfold step. rewrite Hat. unfold log_symptoms_choice.
  destruct H as [->|(c & -> & Hc)]; [reflexivity|].
  unfold Py.index.
  replace ((0 <=? c - 1) &&
           (c - 1 <? Z.of_nat (List.length (keys (symptoms_db b)))))
    with false
    by (symmetry; apply andb_false_iff;
        destruct Hc; [right; apply Z.ltb_ge|left; apply Z.leb_gt]; lia).
  replace ((- Z.of_nat (List.length (keys (symptoms_db b))) <=? c - 1) &&
           (c - 1 <? 0))
    with false
    by (symmetry; apply andb_false_iff;
        destruct Hc; [right; apply Z.ltb_ge|left; apply Z.leb_gt]; lia).
  reflexivity.
Qed.

Lemma invalid_symptom_number_aborts_witness :
  step (mk_bot default_symptoms_db (initialize_files clean) SymptomNumber)
       "99" noon =
    Some (mk_bot default_symptoms_db (initialize_files clean) Pause,
          [Print "Invalid choice. Please try again."]).
Proof.
  apply (invalid_symptom_number_aborts
           (mk_bot default_symptoms_db (initialize_files clean) SymptomNumber)
           "99" noon).
  - reflexivity.
  - right. exists 99. split; [reflexivity|]. left. simpl. lia.
Defined.

(** At the severity prompt, a text that [int] reads as [n], on a log of the
    fragment: the row is appended, the remedies are printed, the advisory
    follows exactly when [n] is at least 4, and the process goes to the
    pause of the loop. *)
Theorem severity_decides_advisory (b : bot) (symptom sev : string)
  (now : Py.datetime) (rows : list Pd.row) (info : symptom_info) (n : Z) :
  at_ b = Severity symptom ->
  lookup (symptoms_db b) symptom = Some info ->
  health_log_file (disk b) = Some rows ->
  in_fragment rows = true ->
  Pd.row_printable (new_entry now symptom sev info) = true ->
  Py.int sev = Some n ->
  exists kept,
    List.length kept = List.length rows /\
    step b sev now =
      Some (mk_bot (symptoms_db b)
              (mk_files (Some (kept ++ [new_entry now symptom sev info])%list)
                        (symptoms_db_file (disk b))) Pause,
            (Print "Suggested Remedies:" ::
             map (fun r => Print ("- " ++ r)) (remedies info) ++
             (if 4 <=? n
              then [Print "⚠️ MEDICAL ATTENTION ADVISED:";
                    Print (seek_medical_attention info)]
              else []))%list).
Proof.
  intros Hat Hk Hlog Hrows He Hint.
  destruct (append_entry_fragment rows _ Hrows He) as (kept & Happ & Hkept).
  exists kept. split; [symmetry; exact (Forall2_length Hkept)|].
  unfold step. rewrite Hat. unfold log_symptoms_severity.
  rewrite Hk, Hlog, Happ, Hint. unfold returned.
  destruct (4 <=? n); [reflexivity|]. now rewrite app_nil_r.
Qed.

Lemma severity_decides_advisory_witness :
  exists kept,
    List.length kept = List.length (@nil Pd.row) /\
    step (mk_bot default_symptoms_db (initialize_files clean)
                 (Severity "cold")) "5" noon =
      Some (mk_bot default_symptoms_db
              (mk_files
                 (Some (kept ++
                        [new_entry noon "cold" "5"
                           (mk_info ["Rest"; "Drink warm fluids";
                                     "Steam inhalation"]
                                    "low" "If symptoms worsen after 7 days")])%list)
                 (symptoms_db_file (initialize_files clean))) Pause,
            (Print "Suggested Remedies:" ::
             map (fun r => Print ("- " ++ r))
                 (remedies (mk_info ["Rest"; "Drink warm fluids";
                                     "Steam inhalation"]
                                    "low" "If symptoms worsen after 7 days")) ++
             (if 4 <=? 5
              then [Print "⚠️ MEDICAL ATTENTION ADVISED:";
                    Print (seek_medical_attention
                             (mk_info ["Rest"; "Drink warm fluids";
                                       "Steam inhalation"]
                                      "low" "If symptoms worsen after 7 days"))]
              else []))%list).
Proof.
  apply (severity_decides_advisory
           (mk_bot default_symptoms_db (initialize_files clean)
                   (Severity "cold"))
           "cold" "5" noon []
           (mk_info ["Rest"; "Drink warm fluids"; "Steam inhalation"]
                    "low" "If symptoms worsen after 7 days") 5);
    reflexivity.
Defined.

(** ** What a run keeps *)

(** Whenever the append goes through, the file holds the rows it had,
    rewritten as pandas read them, and the new entry as submitted. *)
Lemma append_entry_some (rows rows' : list Pd.row) (e : Pd.row) :
  append_entry rows e = Some rows' ->
  exists kept, rows' = (kept ++ [e])%list /\ Forall2 row_rewrites rows kept.
Proof.
  unfold append_entry, Pd.read_csv.
  destruct (Pd.read_col (map Pd.date rows)) as [d|] eqn:Ed; [|discriminate].
  destruct (Pd.read_col (map Pd.symptoms rows)) as [s|] eqn:Es;
    [|discriminate].
  destruct (Pd.read_col (map Pd.severity rows)) as [v|] eqn:Ev;
    [|discriminate].
  destruct (Pd.read_col (map Pd.remedies_suggested rows)) as [r|] eqn:Er;
    [|discriminate].
  apply read_col_loads in Ed, Es, Ev, Er.
  pose proof (zip_rows_rewrites rows _ _ _ _ Ed Es Ev Er) as Hkept.
  unfold Pd.to_csv, Pd.concat, Pd.frame_of_entry; simpl.
  apply Forall2_length in Ed, Es, Ev, Er. rewrite length_map in *.
  rewrite zip_rows_app by congruence. simpl.
  destruct (forallb Pd.row_printable _); [|discriminate].
  intros H. inversion H. destruct e. eexists. split; [reflexivity|exact Hkept].
Qed.

Lemma step_keeps_dictionary (b b' : bot) (line : string) (now : Py.datetime)
  (out : list output) :
  step b line now = Some (b', out) ->
  symptoms_db b' = symptoms_db b /\
  symptoms_db_file (disk b') = symptoms_db_file (disk b).
Proof.
  unfold step, log_symptoms_list, view_history, get_insights,
    seasonal_illnesses, log_symptoms_choice, log_symptoms_severity,
    returned, raised.
  intros H.
  repeat match type of H with
         | context [match ?x with _ => _ end] => destruct x
         | context [if ?x then _ else _] => destruct x
         end;
    inversion H; subst; simpl; auto.
Qed.

Lemma step_log (b b' : bot) (line : string) (now : Py.datetime)
  (out : list output) (rows : list Pd.row) :
  step b line now = Some (b', out) ->
  health_log_file (disk b) = Some rows ->
  (disk b' = disk b) \/
  (exists s kept e,
      at_ b = Severity s /\
      health_log_file (disk b') = Some (kept ++ [e])%list /\
      Forall2 row_rewrites rows kept /\
      Pd.symptoms e = s /\ Pd.severity e = line).
Proof.
  intros H Hlog. unfold step in H.
  destruct (at_ b) eqn:Hat.
  - left. unfold log_symptoms_list, view_history, get_insights,
      seasonal_illnesses, returned, raised in H.
    repeat match type of H with
           | context [match ?x with _ => _ end] => destruct x
           | context [if ?x then _ else _] => destruct x
           end;
      inversion H; subst; simpl; auto.
  - left. unfold log_symptoms_choice, returned in H.
    destruct (Py.int line); [destruct (Py.index _ _)|];
      inversion H; subst; reflexivity.
  - unfold log_symptoms_severity, returned, raised in H.
    rewrite Hlog in H.
    destruct (lookup (symptoms_db b) symptom) as [info|];
      [|inversion H; subst; left; reflexivity].
    destruct (append_entry rows _) as [rows'|] eqn:Happ; [|discriminate].
    apply append_entry_some in Happ. destruct Happ as (kept & -> & Hkept).
    right. exists symptom, kept, (new_entry now symptom line info).
    destruct (Py.int line) as [n|]; [destruct (4 <=? n)|];
      inversion H; subst; simpl; auto.
  - left. inversion H; subst. reflexivity.
  - left. inversion H; subst. reflexivity.
  - left. inversion H; subst. reflexivity.
Qed.

(** Over any run, the dictionary in memory and the dictionary file stay
    as they were, and the log, if it exists, only grows: it never has fewer
    rows than before and gains at most one row per line typed. *)
Theorem run_keeps_dictionary_and_grows_log (b b' : bot)
  (typed : list (string * Py.datetime)) (out : list output)
  (rows : list Pd.row) :
  run b typed = Some (b', out) ->
  health_log_file (disk b) = Some rows ->
  symptoms_db b' = symptoms_db b /\
  symptoms_db_file (disk b') = symptoms_db_file (disk b) /\
  exists rows',
    health_log_file (disk b') = Some rows' /\
    (List.length rows <= List.length rows'
       <= List.length rows + List.length typed)%nat.
Proof.
  revert b out rows. induction typed as [|[line now] typed IH];
    intros b out rows Hrun Hlog; simpl in Hrun.
  - inversion Hrun; subst. repeat split; auto.
    exists rows. split; [exact Hlog|simpl; lia].
  - destruct (step b line now) as [[b1 out1]|] eqn:Hstep; [|discriminate].
    destruct (run b1 typed) as [[b2 out2]|] eqn:Hrest; [|discriminate].
    inversion Hrun; subst.
    destruct (step_keeps_dictionary _ _ _ _ _ Hstep) as [Hd1 Hf1].
    destruct (step_log _ _ _ _ _ rows Hstep Hlog)
      as [Hsame|(s & kept & e & _ & Hlog1 & Hkept & _)].
    + rewrite <- Hsame in Hlog.
      destruct (IH _ _ _ Hrest Hlog) as (Hd & Hf & rows' & Hlog' & Hlen).
      repeat split; try congruence.
      exists rows'. split; [exact Hlog'|simpl; lia].
    + destruct (IH _ _ _ Hrest Hlog1) as (Hd & Hf & rows' & Hlog' & Hlen).
      repeat split; try congruence.
      exists rows'. split; [exact Hlog'|].
      apply Forall2_length in Hkept.
      rewrite List.length_app in Hlen. simpl in *. lia.
Qed.

Lemma run_keeps_dictionary_and_grows_log_witness :
  symptoms_db (mk_bot default_symptoms_db
                 (mk_files
                    (Some [Pd.mk_row "2026-11-03 12:00:00" "cold" "2" "Rest";
                           Pd.mk_row "2026-11-03 12:00:00" "fever" "4"
                                     fever_remedies])
                    (Some default_symptoms_db)) Pause)
    = symptoms_db (mk_bot default_symptoms_db (initialize_files clean) Menu) /\
  symptoms_db_file
    (disk (mk_bot default_symptoms_db
             (mk_files
                (Some [Pd.mk_row "2026-11-03 12:00:00" "cold" "2" "Rest";
                       Pd.mk_row "2026-11-03 12:00:00" "fever" "4"
                                 fever_remedies])
                (Some default_symptoms_db)) Pause))
    = symptoms_db_file
        (disk (mk_bot default_symptoms_db (initialize_files clean) Menu)) /\
  exists rows',
    health_log_file
      (disk (mk_bot default_symptoms_db
               (mk_files
                  (Some [Pd.mk_row "2026-11-03 12:00:00" "cold" "2" "Rest";
                         Pd.mk_row "2026-11-03 12:00:00" "fever" "4"
                                   fever_remedies])
                  (Some default_symptoms_db)) Pause)) = Some rows' /\
    (List.length [Pd.mk_row "2026-11-03 12:00:00" "cold" "2" "Rest"]
       <= List.length rows'
       <= List.length [Pd.mk_row "2026-11-03 12:00:00" "cold" "2" "Rest"]
          + List.length [("2", noon); ("", noon); ("1", noon); ("1", noon);
                         ("4", noon)])%nat.
Proof.
  apply (run_keeps_dictionary_and_grows_log
           (mk_bot default_symptoms_db
              (mk_files
                 (Some [Pd.mk_row "2026-11-03 12:00:00" "cold" "2" "Rest"])
                 (Some default_symptoms_db)) Menu)
           _ [("2", noon); ("", noon); ("1", noon); ("1", noon); ("4", noon)]
           [Print "Your Health History:";
            PrintFrame
              (Pd.mk_frame
                 (Pd.mk_series Pd.object [Pd.VStr "2026-11-03 12:00:00"])
                 (Pd.mk_series Pd.object [Pd.VStr "cold"])
                 (Pd.mk_series Pd.int64 [Pd.VInt 2])
                 (Pd.mk_series Pd.object [Pd.VStr "Rest"]));
            Print "=== Health Alert Bot ==="; Print "1. Log New Symptoms";
            Print "2. View Health History"; Print "3. Get Health Insights";
            Print "4. Learn About Seasonal Illnesses"; Print "5. Exit";
            Print "Available Symptoms:"; Print "1. fever";
            Print "2. headache"; Print "3. cold"; Print "4. stomach_ache";
            Print "Suggested Remedies:"; Print "- Rest well";
            Print "- Stay hydrated";
            Print "- Take paracetamol if temperature is high";
            Print "⚠️ MEDICAL ATTENTION ADVISED:";
            Print "If temperature exceeds 102°F or persists for more than 3 days"]
           [Pd.mk_row "2026-11-03 12:00:00" "cold" "2" "Rest"]);
    reflexivity.
Defined.

(** A turn writes to disk only when it answers the severity prompt, and
    there every answer that the turn accepts writes: once a symptom of the
    dictionary is selected, whatever is typed next is logged as its
    severity, under the date of the clock, after the rows the log had. *)
Theorem log_written_only_by_severity_answer (b b' : bot) (line : string)
  (now : Py.datetime) (out : list output) :
  step b line now = Some (b', out) ->
  ((forall s, at_ b <> Severity s) -> disk b' = disk b) /\
  (forall s rows,
      at_ b = Severity s ->
      In s (keys (symptoms_db b)) ->
      health_log_file (disk b) = Some rows ->
      exists kept e,
        health_log_file (disk b') = Some (kept ++ [e])%list /\
        List.length kept = List.length rows /\
        Pd.date e = Py.strftime now /\
        Pd.symptoms e = s /\
        Pd.severity e = line).
Proof.
  intros H. split.
  - intros Hat. unfold step in H.
    destruct (at_ b) eqn:E; try (exfalso; eapply Hat; reflexivity).
    + unfold log_symptoms_list, view_history, get_insights,
        seasonal_illnesses, returned, raised in H.
      repeat match type of H with
             | context [match ?x with _ => _ end] => destruct x
             | context [if ?x then _ else _] => destruct x
             end;
        inversion H; subst; simpl; auto.
    + unfold log_symptoms_choice, returned in H.
      destruct (Py.int line); [destruct (Py.index _ _)|];
        inversion H; subst; reflexivity.
    + inversion H; subst. reflexivity.
    + inversion H; subst. reflexivity.
    + inversion H; subst. reflexivity.
  - intros s rows Hat Hin Hlog. unfold step in H. rewrite Hat in H.
    unfold log_symptoms_severity, returned, raised in H.
    destruct (lookup_key _ _ Hin) as (info & Hk). rewrite Hk, Hlog in H.
    destruct (append_entry rows _) as [rows'|] eqn:Happ; [|discriminate].
    apply append_entry_some in Happ. destruct Happ as (kept & -> & Hkept).
    exists kept, (new_entry now s line info).
    apply Forall2_length in Hkept.
    destruct (Py.int line) as [n|]; [destruct (4 <=? n)|];
      inversion H; subst; simpl; auto.
Qed.

Lemma log_written_only_by_severity_answer_witness :
  ((forall s,
       at_ (mk_bot default_symptoms_db (initialize_files clean)
                   (Severity "cold")) <> Severity s) ->
   disk (mk_bot default_symptoms_db
           (mk_files
              (Some [new_entry noon "cold" "a lot"
                       (mk_info ["Rest"; "Drink warm fluids";
                                 "Steam inhalation"]
                                "low" "If symptoms worsen after 7 days")])
              (Some default_symptoms_db)) (Raised Py.ValueError))
     = disk (mk_bot default_symptoms_db (initialize_files clean)
                    (Severity "cold"))) /\
  (forall s rows,
      at_ (mk_bot default_symptoms_db (initialize_files clean)
                  (Severity "cold")) = Severity s ->
      In s (keys (symptoms_db
                    (mk_bot default_symptoms_db (initialize_files clean)
                            (Severity "cold")))) ->
      health_log_file
        (disk (mk_bot default_symptoms_db (initialize_files clean)
                      (Severity "cold"))) = Some rows ->
      exists kept e,
        health_log_file
          (disk (mk_bot default_symptoms_db
                   (mk_files
                      (Some [new_entry noon "cold" "a lot"
                               (mk_info ["Rest"; "Drink warm fluids";
                                         "Steam inhalation"]
                                        "low"
                                        "If symptoms worsen after 7 days")])
                      (Some default_symptoms_db)) (Raised Py.ValueError)))
          = Some (kept ++ [e])%list /\
        List.length kept = List.length rows /\
        Pd.date e = Py.strftime noon /\
        Pd.symptoms e = s /\
        Pd.severity e = "a lot").
Proof.
  apply (log_written_only_by_severity_answer
           (mk_bot default_symptoms_db (initialize_files clean)
                   (Severity "cold"))
           _ "a lot" noon
           [Print "Suggested Remedies:"; Print "- Rest";
            Print "- Drink warm fluids"; Print "- Steam inhalation"]).
  reflexivity.
Defined.

(** ** What a session cannot reach *)

Lemma index_In {A : Type} (l : list A) (i : Z) (x : A) :
  Py.index l i = Some x -> In x l.
Proof.
  unfold Py.index.
  destruct ((0 <=? i) && (i <? Z.of_nat (List.length l)));
    [apply nth_error_In|].
  destruct ((- Z.of_nat (List.length l) <=? i) && (i <? 0));
    [apply nth_error_In|discriminate].
Qed.

Ltac close_sound :=
  repeat split; simpl; auto; try discriminate; try congruence.

Lemma step_sound (b b' : bot) (line : string) (now : Py.datetime)
  (out : list output) :
  sound b -> step b line now = Some (b', out) -> sound b'.
Proof.
  intros (Hlog & Hsel & Hexc) H. unfold step in H.
  destruct (at_ b) eqn:Hat.
  - (* Menu *)
    unfold log_symptoms_list, view_history, get_insights,
      seasonal_illnesses, returned, raised in H.
    destruct (String.eqb line "1"); [inversion H; subst; close_sound|].
    destruct (String.eqb line "2").
    { destruct (health_log_file (disk b)) as [rows|] eqn:E; [|contradiction].
      destruct (Pd.read_csv rows) as [df|]; [destruct (Pd.empty df)|];
        inversion H; subst; close_sound. }
    destruct (String.eqb line "3").
    { destruct (health_log_file (disk b)) as [rows|] eqn:E; [|contradiction].
      destruct (Pd.read_csv rows) as [df|]; [|discriminate].
      destruct (Pd.empty df); [inversion H; subst; close_sound|].
      unfold Pd.groupby_mean in H.
      destruct (Pd.dt (Pd.col_severity df));
        [inversion H; subst; close_sound|].
      destruct (existsb _ _); [|discriminate].
      inversion H; subst; close_sound.
      intros e He. inversion He. auto. }
    destruct (String.eqb line "4"); [inversion H; subst; close_sound|].
    destruct (String.eqb line "5"); inversion H; subst; close_sound.
  - (* SymptomNumber *)
    unfold log_symptoms_choice, returned in H.
    destruct (Py.int line) as [c|]; [|inversion H; subst; close_sound].
    destruct (Py.index _ _) as [symptom|] eqn:Ei;
      inversion H; subst; close_sound.
    intros s Hs. inversion Hs; subst. eapply index_In; eauto.
  - (* Severity *)
    unfold log_symptoms_severity, returned, raised in H.
    destruct (lookup_key _ _ (Hsel _ eq_refl)) as (info & Hk). rewrite Hk in H.
    destruct (health_log_file (disk b)) as [rows|]; [|contradiction].
    destruct (append_entry rows _) as [rows'|]; [|discriminate].
    destruct (Py.int line) as [n|]; [destruct (4 <=? n)|];
      inversion H; subst; close_sound.
    intros e He. inversion He. auto.
  - (* Pause *)
    inversion H; subst; close_sound.
  - inversion H; subst. unfold sound. rewrite Hat. close_sound.
  - inversion H; subst. unfold sound. rewrite Hat. close_sound.
Qed.

Lemma run_sound (b b' : bot) (typed : list (string * Py.datetime))
  (out : list output) :
  sound b -> run b typed = Some (b', out) -> sound b'.
Proof.
  revert b out. induction typed as [|[line now] typed IH];
    intros b out Hb Hrun; simpl in Hrun.
  - inversion Hrun; subst. exact Hb.
  - destruct (step b line now) as [[b1 out1]|] eqn:Hstep; [|discriminate].
    destruct (run b1 typed) as [[b2 out2]|] eqn:Hrest; [|discriminate].
    inversion Hrun; subst. eauto using step_sound.
Qed.

Lemma run_keeps_dictionary (b b' : bot) (typed : list (string * Py.datetime))
  (out : list output) :
  run b typed = Some (b', out) ->
  symptoms_db b' = symptoms_db b /\
  symptoms_db_file (disk b') = symptoms_db_file (disk b).
Proof.
  revert b out. induction typed as [|[line now] typed IH];
    intros b out Hrun; simpl in Hrun.
  - inversion Hrun; subst. auto.
  - destruct (step b line now) as [[b1 out1]|] eqn:Hstep; [|discriminate].
    destruct (run b1 typed) as [[b2 out2]|] eqn:Hrest; [|discriminate].
    inversion Hrun; subst.
    destruct (step_keeps_dictionary _ _ _ _ _ Hstep).
    destruct (IH _ _ Hrest). split; congruence.
Qed.

(** In a directory where each of the two files is absent or well formed
    (a log with the four columns; a dictionary whose entries each hold
    their remedies, severity class and advisory), the program starts, at
    the menu, and a file that exists is not overwritten.  After any run of
    the session on a log of the pandas fragment the log exists, the
    dictionary in memory and the one on disk are still the one found at
    start-up (or the default one when there was none), and if the process
    died it died of [ValueError] or [TypeError]: it is never ended by a
    missing file, a missing key or an index out of range. *)
Theorem session_invariants (fs : files)
  (typed : list (string * Py.datetime)) :
  exists b0,
    start fs = Some (b0, display_menu) /\
    at_ b0 = Menu /\
    (forall rows, health_log_file fs = Some rows ->
                  health_log_file (disk b0) = Some rows) /\
    (forall b out,
        run b0 typed = Some (b, out) ->
        health_log_file (disk b) <> None /\
        symptoms_db b = dictionary_of fs /\
        symptoms_db_file (disk b) = Some (dictionary_of fs) /\
        at_ b <> Raised Py.FileNotFoundError /\
        at_ b <> Raised Py.KeyError /\
        at_ b <> Raised Py.IndexError).
Proof.
  exists (mk_bot (dictionary_of fs) (initialize_files fs) Menu).
  assert (Hstart : start fs =
                   Some (mk_bot (dictionary_of fs) (initialize_files fs) Menu,
                         display_menu)).
  { unfold start, dictionary_of, load_symptoms_database, initialize_files.
    simpl. destruct (symptoms_db_file fs); reflexivity. }
  assert (Hfile : symptoms_db_file (initialize_files fs)
                  = Some (dictionary_of fs)).
  { unfold dictionary_of, initialize_files. simpl.
    destruct (symptoms_db_file fs); reflexivity. }
  split; [exact Hstart|]. split; [reflexivity|]. split.
  { intros rows Hrows. simpl. now rewrite Hrows. }
  intros b out Hrun.
  assert (Hsound : sound (mk_bot (dictionary_of fs) (initialize_files fs) Menu)).
  { repeat split; simpl; try discriminate.
    destruct (health_log_file fs); discriminate. }
  destruct (run_sound _ _ _ _ Hsound Hrun) as (Hlog & _ & Hexc).
  destruct (run_keeps_dictionary _ _ _ _ Hrun) as [Hd Hf].
  cbn [symptoms_db disk] in Hd, Hf.
  split; [exact Hlog|]. split; [exact Hd|].
  split; [congruence|].
  repeat split; intros Hat; destruct (Hexc _ Hat); discriminate.
Qed.

(** ** Numbers as texts *)

Lemma of_uint_acc_value (d : Decimal.uint) (p : positive) :
  Z.pos (Pos.of_uint_acc d p) = uint_value d (Z.pos p).
Proof.
  revert p. induction d; intros p; cbn [Pos.of_uint_acc uint_value];
    try reflexivity; rewrite IHd; f_equal; lia.
Qed.

Lemma of_uint_value (d : Decimal.uint) : Z.of_uint d = uint_value d 0.
Proof.
  unfold Z.of_uint.
  induction d; cbn [Pos.of_uint uint_value Z.of_N]; try reflexivity;
    try exact IHd; apply of_uint_acc_value.
Qed.

Lemma digits_of_uint (d : Decimal.uint) (acc : Z) :
  Pd.digits_value (NilEmpty.string_of_uint d) acc = uint_value d acc.
Proof.
  revert acc. induction d; intros acc; try reflexivity;
    cbn [NilEmpty.string_of_uint Pd.digits_value uint_value];
    match goal with
    | |- context [Py.digit_of ?c] =>
        let v := eval vm_compute in (Py.digit_of c) in
        change (Py.digit_of c) with v
    end;
    cbv iota; rewrite IHd, ?Z.add_0_r; reflexivity.
Qed.

Lemma all_digits_of_uint (d : Decimal.uint) :
  Pd.all_digits (NilEmpty.string_of_uint d) = true.
Proof.
  induction d; try reflexivity;
    cbn [NilEmpty.string_of_uint Pd.all_digits];
    match goal with
    | |- context [Py.isdigit ?c] =>
        let v := eval vm_compute in (Py.isdigit c) in
        change (Py.isdigit c) with v
    end;
    exact IHd.
Qed.

Lemma int_digits_of_uint (d : Decimal.uint) (acc : Z) :
  Py.int_digits (NilEmpty.string_of_uint d) acc = (uint_value d acc, "").
Proof.
  revert acc. induction d; intros acc; try reflexivity;
    cbn [NilEmpty.string_of_uint Py.int_digits uint_value];
    match goal with
    | |- context [Py.digit_of ?c] =>
        let v := eval vm_compute in (Py.digit_of c) in
        change (Py.digit_of c) with v
    end;
    cbv iota; rewrite IHd, ?Z.add_0_r; reflexivity.
Qed.

Lemma unsigned_text_of_uint (d : Decimal.uint) :
  d <> Decimal.Nil ->
  Pd.unsigned_text (NilEmpty.string_of_uint d) = Some (uint_value d 0) /\
  exists c r, NilEmpty.string_of_uint d = String c r /\
              Py.isdigit c = true.
Proof.
  intros Hd. split.
  - unfold Pd.unsigned_text. rewrite all_digits_of_uint, digits_of_uint.
    destruct d; [contradiction|..]; reflexivity.
  - destruct d; [contradiction|..]; eexists _, _; split; reflexivity.
Qed.

Lemma literal_digits_le (s : string) :
  Py.literal_digits s <= Z.of_nat (String.length s).
Proof.
  induction s as [|c s IH]; [reflexivity|].
  cbn [Py.literal_digits String.length]. rewrite Nat2Z.inj_succ.
  destruct (Py.isdigit c); [lia|].
  destruct (Py.code c =? 95); lia.
Qed.

Lemma unsigned_int_of_uint (d : Decimal.uint) :
  d <> Decimal.Nil ->
  (String.length (NilEmpty.string_of_uint d) <= 4300)%nat ->
  Py.unsigned_int (NilEmpty.string_of_uint d) = Some (uint_value d 0).
Proof.
  intros Hd Hlen.
  pose proof (literal_digits_le (NilEmpty.string_of_uint d)) as Hle.
  assert (Hlim : (Py.max_str_digits
                  <? Py.literal_digits (NilEmpty.string_of_uint d)) = false)
    by (apply Z.ltb_ge; unfold Py.max_str_digits; lia).
  clear Hle Hlen.
  destruct d; [contradiction|..];
    cbn [NilEmpty.string_of_uint Py.unsigned_int uint_value] in *;
    match goal with
    | |- context [Py.digit_of ?c] =>
        let v := eval vm_compute in (Py.digit_of c) in
        change (Py.digit_of c) with v
    end;
    cbv iota; rewrite Hlim, int_digits_of_uint; reflexivity.
Qed.

Lemma digit_not_sign_or_space (c : ascii) :
  Py.isdigit c = true ->
  (Py.code c =? 45) = false /\ (Py.code c =? 43) = false /\
  Py.isspace c = false.
Proof.
  unfold Py.isdigit, Py.digit_of, Py.isspace.
  destruct ((48 <=? Py.code c) && (Py.code c <=? 57)) eqn:E; [|discriminate].
  intros _. apply andb_true_iff in E. destruct E as [E1 E2].
  apply Z.leb_le in E1. apply Z.leb_le in E2.
  repeat split; try (apply Z.eqb_neq; lia).
  apply orb_false_iff. split.
  - apply andb_false_iff. right. apply Z.leb_gt. lia.
  - apply Z.eqb_neq. lia.
Qed.

(** On a text of ASCII characters [int] is [PyLong_FromString] on the text
    itself. *)
Lemma int_of_ascii (s : string) :
  below_127 s = true -> Py.int s = Py.long_from_string s.
Proof.
  intros H. unfold Py.int.
  assert (Hcp : exists cps, Py.code_points s = Some cps /\
                            Py.transform cps = s).
  { induction s as [|c s IH]; [exists []; split; reflexivity|].
    cbn [below_127] in H. apply andb_true_iff in H. destruct H as [Hc Hs].
    destruct (IH Hs) as (cps & Hcps & Ht).
    exists (Py.code c :: cps). apply Z.ltb_lt in Hc. split.
    - cbn [Py.code_points]. cbv zeta.
      replace (Py.code c <? 128) with true by (symmetry; apply Z.ltb_lt; lia).
      now rewrite Hcps.
    - cbn [Py.transform fold_right]. fold (Py.transform cps). rewrite Ht.
      unfold Py.to_ascii.
      replace (Py.code c <? 127) with true by (symmetry; apply Z.ltb_lt; lia).
      unfold Py.chr, Py.code. now rewrite Nat2Z.id, ascii_nat_embedding. }
  destruct Hcp as (cps & -> & ->). reflexivity.
Qed.

Lemma below_127_uint (d : Decimal.uint) :
  below_127 (NilEmpty.string_of_uint d) = true.
Proof.
  induction d; [reflexivity|..];
    cbn [NilEmpty.string_of_uint below_127]; rewrite IHd; reflexivity.
Qed.

(** What [str] writes for an integer is read back as that integer by the
    integer reading of pandas. *)
Lemma int_text_of_str (z : Z) : Pd.int_text (Py.str_of_int z) = Some z.
Proof.
  pose proof (DecimalZ.of_to z) as Hz.
  unfold Py.str_of_int, NilZero.string_of_int.
  destruct z as [|p|p]; [reflexivity| |];
    cbn [Z.to_int] in *;
    pose proof (DecimalPos.Unsigned.to_uint_nonnil p) as Hnil;
    destruct (unsigned_text_of_uint _ Hnil) as (Ht & c & r & Hs & Hc);
    destruct (digit_not_sign_or_space c Hc) as (H45 & H43 & Hsp);
    cbn [Z.of_int] in Hz; rewrite of_uint_value in Hz;
    assert (Hstr : NilZero.string_of_uint (Pos.to_uint p)
                   = NilEmpty.string_of_uint (Pos.to_uint p))
      by (unfold NilZero.string_of_uint;
          destruct (Pos.to_uint p); [contradiction|..]; reflexivity);
    rewrite Hstr.
  - unfold Pd.int_text. rewrite Hs, H45. rewrite <- Hs, Ht. congruence.
  - unfold Pd.int_text.
    change (Py.code "-" =? 45) with true. cbv iota.
    rewrite Ht. simpl. f_equal. lia.
Qed.

(** And by [int], as long as it has no more than 4300 characters. *)
Lemma int_of_str (z : Z) :
  (String.length (Py.str_of_int z) <= 4300)%nat ->
  Py.int (Py.str_of_int z) = Some z.
Proof.
  pose proof (DecimalZ.of_to z) as Hz.
  unfold Py.str_of_int, NilZero.string_of_int.
  destruct z as [|p|p]; [reflexivity| |];
    cbn [Z.to_int] in *;
    pose proof (DecimalPos.Unsigned.to_uint_nonnil p) as Hnil;
    destruct (unsigned_text_of_uint _ Hnil) as (_ & c & r & Hs & Hc);
    destruct (digit_not_sign_or_space c Hc) as (H45 & H43 & Hsp);
    cbn [Z.of_int] in Hz; rewrite of_uint_value in Hz;
    assert (Hstr : NilZero.string_of_uint (Pos.to_uint p)
                   = NilEmpty.string_of_uint (Pos.to_uint p))
      by (unfold NilZero.string_of_uint;
          destruct (Pos.to_uint p); [contradiction|..]; reflexivity);
    rewrite Hstr; intros Hlen.
  - rewrite int_of_ascii by apply below_127_uint.
    pose proof (unsigned_int_of_uint _ Hnil Hlen) as Hi.
    unfold Py.long_from_string. rewrite Hs. cbn [Py.lstrip].
    rewrite Hsp, H45, H43. rewrite <- Hs, Hi. congruence.
  - rewrite int_of_ascii
      by (cbn [below_127]; rewrite below_127_uint; reflexivity).
    cbn [String.length] in Hlen.
    pose proof (unsigned_int_of_uint _ Hnil ltac:(lia)) as Hi.
    unfold Py.long_from_string. cbn [Py.lstrip].
    change (Py.isspace "-") with false. cbv iota.
    change (Py.code "-" =? 45) with true. cbv iota.
    rewrite Hi. simpl. f_equal. lia.
Qed.

(** ** Selecting a symptom *)

Lemma enumerate_from_spec {A : Type} (l : list A) (k i : nat) (x : A) :
  In (i, x) (Py.enumerate_from k l) ->
  (k <= i < k + List.length l)%nat /\ nth_error l (i - k) = Some x.
Proof.
  revert k. induction l as [|y l IH]; intros k; simpl; [tauto|].
  intros [H|H].
  - inversion H; subst. rewrite Nat.sub_diag. split; [lia|reflexivity].
  - destruct (IH _ H) as [Hi Hn]. split; [lia|].
    replace (i - k)%nat with (S (i - S k)) by lia. exact Hn.
Qed.

(** The number printed beside a name in the list of symptoms selects that
    name: typing it at the symptom prompt leads to the severity prompt for
    this symptom, with nothing printed and nothing written.  The number is
    one that [int] accepts, of no more than 4300 digits. *)
Theorem displayed_number_selects (b : bot) (i : nat) (name : string)
  (now : Py.datetime) :
  at_ b = SymptomNumber ->
  In (i, name) (Py.enumerate_from 1 (keys (symptoms_db b))) ->
  (String.length (Py.str_of_nat i) <= 4300)%nat ->
  (exists b1 out,
      log_symptoms_list b = Some (b1, out) /\
      In (Print (Py.str_of_nat i ++ ". " ++ name)) out) /\
  step b (Py.str_of_nat i) now =
    Some (mk_bot (symptoms_db b) (disk b) (Severity name), []).
Proof.
  intros Hat Hin Hlen. split.
  - eexists _, _. split; [reflexivity|]. right.
    apply (in_map (fun p => Print (Py.str_of_nat (fst p) ++ ". " ++ snd p))
                  _ _ Hin).
  - apply enumerate_from_spec in Hin. destruct Hin as [Hi Hn].
    unfold step. rewrite Hat. unfold log_symptoms_choice, Py.str_of_nat.
    rewrite (int_of_str (Z.of_nat i) Hlen).
    destruct (index_displayed (keys (symptoms_db b)) (Z.of_nat i)
                ltac:(lia)) as (x & Hx & Hx').
    rewrite Hx. replace (Z.to_nat (Z.of_nat i - 1)) with (i - 1)%nat in Hx'
      by lia.
    congruence.
Qed.

Lemma displayed_number_selects_witness :
  (exists b1 out,
      log_symptoms_list
        (mk_bot default_symptoms_db (initialize_files clean) SymptomNumber)
        = Some (b1, out) /\
      In (Print (Py.str_of_nat 3 ++ ". " ++ "cold")) out) /\
  step (mk_bot default_symptoms_db (initialize_files clean) SymptomNumber)
       (Py.str_of_nat 3) noon =
    Some (mk_bot default_symptoms_db (initialize_files clean)
                 (Severity "cold"), []).
Proof.
  apply (displayed_number_selects
           (mk_bot default_symptoms_db (initialize_files clean) SymptomNumber)
           3 "cold" noon).
  - reflexivity.
  - simpl. tauto.
  - vm_compute. lia.
Defined.

(** For a dictionary of [n] names, a number [c] with [-n < c <= 0] is not
    refused at the symptom prompt: it selects the name at place [n + c] of
    the displayed list (0 the last one, [1 - n] the first). *)
Theorem nonpositive_number_selects_from_end (b : bot) (line : string)
  (c : Z) (now : Py.datetime) :
  at_ b = SymptomNumber ->
  Py.int line = Some c ->
  - Z.of_nat (List.length (keys (symptoms_db b))) < c <= 0 ->
  exists name,
    nth_error (keys (symptoms_db b))
      (Z.to_nat (Z.of_nat (List.length (keys (symptoms_db b))) + c - 1))
      = Some name /\
    step b line now =
      Some (mk_bot (symptoms_db b) (disk b) (Severity name), []).
Proof.
  intros Hat Hint Hc. unfold step. rewrite Hat.
  unfold log_symptoms_choice. rewrite Hint. unfold Py.index.
  set (n := Z.of_nat (List.length (keys (symptoms_db b)))) in *.
  replace ((0 <=? c - 1) && (c - 1 <? n)) with false
    by (symmetry; apply andb_false_iff; left; apply Z.leb_gt; lia).
  replace ((- n <=? c - 1) && (c - 1 <? 0)) with true
    by (symmetry; apply andb_true_iff; split;
        [apply Z.leb_le|apply Z.ltb_lt]; lia).
  replace (c - 1 + n) with (n + c - 1) by lia.
  destruct (nth_error (keys (symptoms_db b)) (Z.to_nat (n + c - 1)))
    as [name|] eqn:E.
  - exists name. split; reflexivity.
  - apply nth_error_None in E. unfold n in E. lia.
Qed.

Lemma nonpositive_number_selects_from_end_witness :
  exists name,
    nth_error (keys default_symptoms_db)
      (Z.to_nat (Z.of_nat (List.length (keys default_symptoms_db)) + -2 - 1))
      = Some name /\
    step (mk_bot default_symptoms_db (initialize_files clean) SymptomNumber)
         " -2" noon =
      Some (mk_bot default_symptoms_db (initialize_files clean)
                   (Severity name), []).
Proof.
  apply (nonpositive_number_selects_from_end
           (mk_bot default_symptoms_db (initialize_files clean) SymptomNumber)
           " -2" (-2) noon); try reflexivity.
  simpl. lia.
Defined.

(** ** A row is rewritten once *)

Lemma int_text_not_na (s : string) (z : Z) :
  Pd.int_text s = Some z -> Pd.is_na s = false.
Proof.
  intros Hz. destruct (Pd.is_na s) eqn:E; [|reflexivity].
  unfold Pd.is_na, Pd.str_in, Pd.na_values in E. simpl in E.
  repeat match type of E with
         | (String.eqb s ?lit || _) = true =>
             apply orb_true_iff in E; destruct E as [E|E];
             [apply String.eqb_eq in E; subst s; discriminate Hz|]
         end.
  discriminate E.
Qed.

Lemma int_of_field_spec (c : string) (z : Z) :
  Pd.int_of_field c = Some z <->
  Pd.int_text c = Some z /\ Pd.in_int64 z = true.
Proof.
  unfold Pd.int_of_field, Pd.classify. split.
  - destruct (Pd.is_na c); [discriminate|].
    destruct (Pd.int_text c) as [z'|].
    + destruct (Pd.in_int64 z') eqn:E; [|discriminate].
      intros H. inversion H; subst. auto.
    + destruct (Pd.has_text_char c && _); discriminate.
  - intros [Hz Hr]. rewrite (int_text_not_na c z Hz), Hz, Hr. reflexivity.
Qed.

Lemma int_of_field_str (c : string) (z : Z) :
  Pd.int_of_field c = Some z ->
  Pd.int_of_field (Py.str_of_int z) = Some z /\
  Pd.object_value (Py.str_of_int z) = Pd.VStr (Py.str_of_int z).
Proof.
  intros H. apply int_of_field_spec in H. destruct H as [_ Hr].
  pose proof (int_text_of_str z) as Hz. split.
  - apply int_of_field_spec. auto.
  - unfold Pd.object_value. now rewrite (int_text_not_na _ _ Hz).
Qed.

Lemma all_ints_app (a b : list string) :
  Pd.all_ints (a ++ b) =
  match Pd.all_ints a, Pd.all_ints b with
  | Some x, Some y => Some (x ++ y)%list
  | _, _ => None
  end.
Proof.
  induction a as [|c a IH]; simpl.
  - destruct (Pd.all_ints b); reflexivity.
  - destruct (Pd.int_of_field c); [|reflexivity].
    rewrite IH. destruct (Pd.all_ints a); [|reflexivity].
    destruct (Pd.all_ints b); reflexivity.
Qed.

Lemma all_ints_rendered (cells : list string) (zs : list Z) :
  Pd.all_ints cells = Some zs ->
  Pd.all_ints (map Py.str_of_int zs) = Some zs /\
  map Pd.object_value (map Py.str_of_int zs)
    = map Pd.VStr (map Py.str_of_int zs).
Proof.
  intros H. apply all_ints_fields in H.
  induction H as [|c z cells zs Hc _ [IH1 IH2]]; simpl; [auto|].
  destruct (int_of_field_str c z Hc) as [H1 H2].
  rewrite H1, IH1, H2, IH2. auto.
Qed.

Lemma render_object_value_twice (cells : list string) :
  map Pd.render
    (map Pd.object_value (map Pd.render (map Pd.object_value cells)))
  = map Pd.render (map Pd.object_value cells).
Proof.
  induction cells as [|c cells IH]; simpl; [reflexivity|].
  rewrite IH. f_equal. unfold Pd.object_value.
  destruct (Pd.is_na c) eqn:E; simpl; [reflexivity|]. now rewrite E.
Qed.

Lemma text_survives (cells : list string) :
  existsb Pd.is_text cells = true ->
  existsb Pd.is_text (map Pd.render (map Pd.object_value cells)) = true.
Proof.
  induction cells as [|c cells IH]; simpl; [discriminate|].
  intros H. apply orb_true_iff in H. destruct H as [H|H].
  - pose proof (is_text_not_int c H) as [_ Hna].
    unfold Pd.object_value. rewrite Hna. simpl. now rewrite H.
  - rewrite (IH H). apply orb_true_r.
Qed.

(** A column that was read and written is, with one more field after it,
    read and written again as it is. *)
Lemma read_col_again (cells : list string) (c : string)
  (s s1 : Pd.Series) :
  Pd.read_col cells = Some s ->
  Pd.read_col (map Pd.render (Pd.values s) ++ [c]) = Some s1 ->
  exists v,
    map Pd.render (Pd.values s1)
      = (map Pd.render (Pd.values s) ++ [Pd.render v])%list /\
    loads c v.
Proof.
  intros Hs Hs1.
  pose proof (read_col_loads _ _ Hs1) as Hloads.
  apply Forall2_app_inv_l in Hloads.
  destruct Hloads as (vs & vc & Hvs & Hc & Hval).
  inversion Hc as [|? v ? ? Hv Hnil]; subst. inversion Hnil; subst.
  exists v. split; [|exact Hv].
  apply read_col_how in Hs. apply read_col_how in Hs1.
  rewrite Hval, map_app. cbn [map]. f_equal.
  destruct Hs as [(zs & Hz & ->)|[(-> & ->)|(Ht & ->)]]; cbn [Pd.values] in *.
  - (* an integer column *)
    rewrite map_map in *. cbn [Pd.render] in *.
    change (fun x : Z => Py.str_of_int x) with Py.str_of_int in *.
    destruct (all_ints_rendered _ _ Hz) as [Hz1 Hobj].
    destruct Hs1 as [(zs1 & Hz1' & ->)|[(Habs & _)|(_ & ->)]];
      cbn [Pd.values] in Hval.
    + rewrite all_ints_app, Hz1 in Hz1'. simpl in Hz1'.
      destruct (Pd.int_of_field c) as [z'|]; [|discriminate].
      inversion Hz1'; subst. rewrite map_app in Hval. cbn [map] in Hval.
      apply app_inj_tail in Hval. destruct Hval as [<- _].
      now rewrite map_map.
    + destruct (map Py.str_of_int zs); discriminate.
    + rewrite map_app in Hval. cbn [map] in Hval.
      apply app_inj_tail in Hval. destruct Hval as [<- _].
      rewrite Hobj, map_map. cbn [Pd.render]. apply map_id.
  - (* no row *)
    apply Forall2_length in Hvs. destruct vs; [reflexivity|discriminate].
  - (* a text column *)
    destruct Hs1 as [(zs1 & Hz1' & ->)|[(Habs & _)|(_ & ->)]];
      cbn [Pd.values] in Hval.
    + apply all_ints_no_text in Hz1'. rewrite existsb_app in Hz1'.
      rewrite (text_survives _ Ht) in Hz1'. discriminate.
    + destruct (map Pd.render (map Pd.object_value cells)); discriminate.
    + rewrite map_app in Hval. cbn [map] in Hval.
      apply app_inj_tail in Hval. destruct Hval as [<- _].
      apply render_object_value_twice.
Qed.

Lemma zip_rows_columns (d s v r : list Pd.value) :
  List.length s = List.length d -> List.length v = List.length d ->
  List.length r = List.length d ->
  map Pd.date (Pd.zip_rows d s v r) = map Pd.render d /\
  map Pd.symptoms (Pd.zip_rows d s v r) = map Pd.render s /\
  map Pd.severity (Pd.zip_rows d s v r) = map Pd.render v /\
  map Pd.remedies_suggested (Pd.zip_rows d s v r) = map Pd.render r.
Proof.
  revert s v r. induction d as [|x d IH]; intros [|y s] [|z v] [|w r];
    simpl; intros Hs Hv Hr; try discriminate; auto.
  destruct (IH s v r) as (H1 & H2 & H3 & H4); try lia.
  now rewrite H1, H2, H3, H4.
Qed.

Lemma zip_rows_ext (d s v r d' s' v' r' : list Pd.value) :
  map Pd.render d = map Pd.render d' ->
  map Pd.render s = map Pd.render s' ->
  map Pd.render v = map Pd.render v' ->
  map Pd.render r = map Pd.render r' ->
  Pd.zip_rows d s v r = Pd.zip_rows d' s' v' r'.
Proof.
  revert s v r d' s' v' r'.
  induction d as [|x d IH]; intros s v r d' s' v' r' Hd Hs Hv Hr;
    destruct d' as [|x' d']; try discriminate; [reflexivity|].
  destruct s as [|y s], s' as [|y' s']; try discriminate; try reflexivity.
  destruct v as [|z v], v' as [|z' v']; try discriminate; try reflexivity.
  destruct r as [|w r], r' as [|w' r']; try discriminate; try reflexivity.
  simpl in *. inversion Hd. inversion Hs. inversion Hv. inversion Hr.
  f_equal; try congruence. apply IH; assumption.
Qed.

Lemma append_entry_columns (rows rows' : list Pd.row) (e : Pd.row) :
  append_entry rows e = Some rows' ->
  exists d s v r,
    Pd.read_col (map Pd.date rows) = Some d /\
    Pd.read_col (map Pd.symptoms rows) = Some s /\
    Pd.read_col (map Pd.severity rows) = Some v /\
    Pd.read_col (map Pd.remedies_suggested rows) = Some r /\
    List.length (Pd.values s) = List.length (Pd.values d) /\
    List.length (Pd.values v) = List.length (Pd.values d) /\
    List.length (Pd.values r) = List.length (Pd.values d) /\
    rows' = (Pd.zip_rows (Pd.values d) (Pd.values s) (Pd.values v)
                         (Pd.values r) ++ [e])%list.
Proof.
  unfold append_entry, Pd.read_csv.
  destruct (Pd.read_col (map Pd.date rows)) as [d|] eqn:Ed; [|discriminate].
  destruct (Pd.read_col (map Pd.symptoms rows)) as [s|] eqn:Es;
    [|discriminate].
  destruct (Pd.read_col (map Pd.severity rows)) as [v|] eqn:Ev;
    [|discriminate].
  destruct (Pd.read_col (map Pd.remedies_suggested rows)) as [r|] eqn:Er;
    [|discriminate].
  pose proof (read_col_loads _ _ Ed) as Ld.
  pose proof (read_col_loads _ _ Es) as Ls.
  pose proof (read_col_loads _ _ Ev) as Lv.
  pose proof (read_col_loads _ _ Er) as Lr.
  apply Forall2_length in Ld, Ls, Lv, Lr. rewrite length_map in *.
  unfold Pd.to_csv, Pd.concat, Pd.frame_of_entry; simpl.
  rewrite zip_rows_app by congruence. simpl.
  destruct (forallb Pd.row_printable _); [|discriminate].
  intros H. inversion H. destruct e.
  exists d, s, v, r. repeat split; congruence.
Qed.

Lemma append_twice (rows rows1 rows2 : list Pd.row) (e1 e2 : Pd.row) :
  append_entry rows e1 = Some rows1 ->
  append_entry rows1 e2 = Some rows2 ->
  exists kept e1',
    List.length kept = List.length rows /\
    rows1 = (kept ++ [e1])%list /\
    rows2 = (kept ++ [e1'; e2])%list /\
    row_rewrites e1 e1'.
Proof.
  intros H1 H2.
  apply append_entry_columns in H1.
  destruct H1 as (d & s & v & r & Ed & Es & Ev & Er & Ls & Lv & Lr & ->).
  apply append_entry_columns in H2.
  destruct H2 as (d1 & s1 & v1 & r1 & Ed1 & Es1 & Ev1 & Er1 & _ & _ & _ & ->).
  destruct (zip_rows_columns _ _ _ _ Ls Lv Lr) as (Cd & Cs & Cv & Cr).
  rewrite map_app in Ed1, Es1, Ev1, Er1.
  rewrite Cd in Ed1. rewrite Cs in Es1. rewrite Cv in Ev1. rewrite Cr in Er1.
  cbn [map] in Ed1, Es1, Ev1, Er1.
  destruct (read_col_again _ _ _ _ Ed Ed1) as (vd & Rd & Hd).
  destruct (read_col_again _ _ _ _ Es Es1) as (vs & Rs & Hs).
  destruct (read_col_again _ _ _ _ Ev Ev1) as (vv & Rv & Hv).
  destruct (read_col_again _ _ _ _ Er Er1) as (vr & Rr & Hr).
  exists (Pd.zip_rows (Pd.values d) (Pd.values s) (Pd.values v) (Pd.values r)),
         (Pd.mk_row (Pd.render vd) (Pd.render vs) (Pd.render vv)
                    (Pd.render vr)).
  split.
  { apply read_col_loads, Forall2_length in Ed. rewrite length_map in Ed.
    pose proof (f_equal (@List.length _) Cd) as Hlen.
    rewrite !length_map in Hlen. congruence. }
  split; [reflexivity|]. split.
  - rewrite (zip_rows_ext _ _ _ _
               (Pd.values d ++ [vd]) (Pd.values s ++ [vs])
               (Pd.values v ++ [vv]) (Pd.values r ++ [vr]));
      try (rewrite map_app; assumption).
    rewrite zip_rows_app by assumption.
    rewrite <- app_assoc. reflexivity.
  - unfold row_rewrites. simpl. auto using loads_rewrites.
Qed.

(** On a log of the pandas fragment, an entry without control characters
    is appended as typed behind as many rows as there were.  If the log is
    then still in the fragment (the entry did not turn a column of
    integers into one of floats), the next append writes the earlier rows
    exactly as they stand and rewrites only the entry of the append before
    it, an integer field to its canonical numeral and a missing-value
    marker to the empty field: a row is re-rendered by the append that
    follows its own, and from then on it stays to the letter. *)
Theorem row_rewritten_once (rows : list Pd.row) (e1 e2 : Pd.row) :
  in_fragment rows = true ->
  Pd.row_printable e1 = true ->
  Pd.row_printable e2 = true ->
  exists kept,
    append_entry rows e1 = Some (kept ++ [e1])%list /\
    List.length kept = List.length rows /\
    (in_fragment (kept ++ [e1]) = true ->
     exists e1',
       append_entry (kept ++ [e1]) e2 = Some (kept ++ [e1'; e2])%list /\
       row_rewrites e1 e1').
Proof.
  intros Hrows He1 He2.
  destruct (append_entry_fragment rows e1 Hrows He1) as (kept & H1 & Hkept).
  exists kept. split; [exact H1|].
  split; [symmetry; exact (Forall2_length Hkept)|].
  intros Hnext.
  destruct (append_entry_fragment _ e2 Hnext He2) as (kept2 & H2 & _).
  destruct (append_twice _ _ _ _ _ H1 H2) as (kept0 & e1' & _ & Hk & Hk2 & Hre).
  apply app_inj_tail in Hk. destruct Hk as [<- _].
  exists e1'. split; [|exact Hre]. now rewrite H2, Hk2.
Qed.

Lemma row_rewritten_once_witness :
  exists kept,
    append_entry
      [Pd.mk_row "2026-11-03 12:00:00" "fever" "03" fever_remedies]
      (Pd.mk_row "2026-11-03 12:00:00" "headache" "04" headache_remedies)
    = Some (kept ++ [Pd.mk_row "2026-11-03 12:00:00" "headache" "04"
                               headache_remedies])%list /\
    List.length kept
      = List.length
          [Pd.mk_row "2026-11-03 12:00:00" "fever" "03" fever_remedies] /\
    (in_fragment
       (kept ++ [Pd.mk_row "2026-11-03 12:00:00" "headache" "04"
                           headache_remedies]) = true ->
     exists e1',
       append_entry
         (kept ++ [Pd.mk_row "2026-11-03 12:00:00" "headache" "04"
                             headache_remedies])
         (Pd.mk_row "2026-11-03 12:00:00" "cold" "5" "Rest")
       = Some (kept ++ [e1'; Pd.mk_row "2026-11-03 12:00:00" "cold" "5"
                                       "Rest"])%list /\
       row_rewrites
         (Pd.mk_row "2026-11-03 12:00:00" "headache" "04" headache_remedies)
         e1').
Proof.
  apply (row_rewritten_once
           [Pd.mk_row "2026-11-03 12:00:00" "fever" "03" fever_remedies]
           (Pd.mk_row "2026-11-03 12:00:00" "headache" "04" headache_remedies)
           (Pd.mk_row "2026-11-03 12:00:00" "cold" "5" "Rest"));
    reflexivity.
Defined.

(** The two appends of the witness, computed: the rating 03 is rewritten
    by the first, the rating 04 by the second. *)
Example two_appends :
  append_entry
    [Pd.mk_row "2026-11-03 12:00:00" "fever" "03" fever_remedies]
    (Pd.mk_row "2026-11-03 12:00:00" "headache" "04" headache_remedies)
  = Some [Pd.mk_row "2026-11-03 12:00:00" "fever" "3" fever_remedies;
          Pd.mk_row "2026-11-03 12:00:00" "headache" "04" headache_remedies] /\
  append_entry
    [Pd.mk_row "2026-11-03 12:00:00" "fever" "3" fever_remedies;
     Pd.mk_row "2026-11-03 12:00:00" "headache" "04" headache_remedies]
    (Pd.mk_row "2026-11-03 12:00:00" "cold" "5" "Rest")
  = Some [Pd.mk_row "2026-11-03 12:00:00" "fever" "3" fever_remedies;
          Pd.mk_row "2026-11-03 12:00:00" "headache" "4" headache_remedies;
          Pd.mk_row "2026-11-03 12:00:00" "cold" "5" "Rest"].
Proof. split; vm_compute; reflexivity. Qed.

(** ** More on the insights *)

Lemma total_count_perm (a b : list (Pd.value * nat)) :
  Permutation a b -> total_count a = total_count b.
Proof.
  induction 1; simpl; lia.
Qed.

Lemma count_cons (k x : Pd.value) (l : list Pd.value) :
  Pd.count k (x :: l) =
  ((if Pd.value_eqb k x then 1 else 0) + Pd.count k l)%nat.
Proof.
  unfold Pd.count. simpl. destruct (Pd.value_eqb k x); reflexivity.
Qed.

Lemma one_hit (u : list Pd.value) (x : Pd.value) :
  NoDup u -> In x u ->
  fold_right (fun k acc => ((if Pd.value_eqb k x then 1 else 0) + acc)%nat)
             O u = 1%nat.
Proof.
  induction 1 as [|y u Hy Hu IH]; simpl; [tauto|].
  intros [->|Hin].
  - rewrite value_eqb_refl.
    assert (Hz : fold_right
                   (fun k acc =>
                      ((if Pd.value_eqb k x then 1 else 0) + acc)%nat) O u
                 = O).
    { clear IH Hu. induction u as [|z u IHu]; simpl; [reflexivity|].
      destruct (Pd.value_eqb z x) eqn:E.
      - apply value_eqb_eq in E. subst. exfalso. apply Hy. simpl. auto.
      - apply IHu. intros H. apply Hy. simpl. auto. }
    rewrite Hz. reflexivity.
  - destruct (Pd.value_eqb y x) eqn:E.
    + apply value_eqb_eq in E. subst. contradiction.
    + simpl. auto.
Qed.

Lemma counts_add_up (u l : list Pd.value) :
  NoDup u -> (forall x, In x l -> In x u) ->
  fold_right (fun k acc => (Pd.count k l + acc)%nat) O u = List.length l.
Proof.
  intros Hu. induction l as [|x l IH]; intros Hin.
  - clear Hu Hin. induction u; simpl; auto.
  - assert (Hsplit :
      fold_right (fun k acc => (Pd.count k (x :: l) + acc)%nat) O u =
      (fold_right (fun k acc =>
                     ((if Pd.value_eqb k x then 1 else 0) + acc)%nat) O u
       + fold_right (fun k acc => (Pd.count k l + acc)%nat) O u)%nat).
    { clear. induction u as [|k u IHu]; simpl; [reflexivity|].
      rewrite count_cons, IHu. lia. }
    rewrite Hsplit, (one_hit u x Hu) by (apply Hin; simpl; auto).
    rewrite IH by (intros y Hy; apply Hin; simpl; auto).
    reflexivity.
Qed.

(** The counts of the frequency insight add up to the number of rows that
    carry a symptom name: every such row is counted, and counted once. *)
Theorem frequency_counts_every_row (s : Pd.Series) :
  total_count (Pd.value_counts s)
  = List.length (filter Pd.notna (Pd.values s)).
Proof.
  unfold Pd.value_counts.
  set (keys := filter Pd.notna (Pd.values s)).
  rewrite (total_count_perm _ _ (sort_desc_perm _)).
  rewrite <- (counts_add_up (Pd.unique keys) keys (unique_NoDup keys))
    by (intros x Hx; now apply unique_In).
  induction (Pd.unique keys) as [|k u IH]; simpl; [reflexivity|].
  now rewrite IH.
Qed.

Lemma group_holds (k v : Pd.value) (keys vals : list Pd.value) :
  In (k, v) (combine keys vals) -> In v (Pd.group k keys vals).
Proof.
  revert vals. induction keys as [|k' keys IH]; intros [|v' vals]; simpl;
    try tauto.
  intros [H|H].
  - inversion H; subst. rewrite value_eqb_refl. simpl. auto.
  - destruct (Pd.value_eqb k k'); simpl; auto.
Qed.

Lemma loaded_pair {A : Type} (f : A -> string) (g : A -> Pd.value)
  (rows : list A) (keys : list Pd.value) (r : A) :
  Forall2 loads (map f rows) keys -> In r rows ->
  exists k, loads (f r) k /\ In (k, g r) (combine keys (map g rows)).
Proof.
  revert keys. induction rows as [|x rows IH]; intros keys H Hin; simpl in *;
    [tauto|].
  inversion H as [|? k ? keys' Hk Hrest]; subst.
  destruct Hin as [->|Hin].
  - exists k. simpl. auto.
  - destruct (IH _ Hrest Hin) as (k' & Hk' & Hin').
    exists k'. simpl. auto.
Qed.

Lemma sort_keys_In (k : Pd.value) (l : list Pd.value) :
  In k (Pd.sort_keys l) <-> In k l.
Proof.
  split; apply Permutation_in;
    [apply sort_keys_perm|symmetry; apply sort_keys_perm].
Qed.

(** Once the log holds a row whose severity is text in every reading,
    under a symptom name that is not a missing-value marker,
    [get_insights] prints the frequencies and then dies of the exception
    that the mean of a non-numeric column raises. *)
Theorem insights_raise_on_text_severity (b : bot) (rows : list Pd.row)
  (df : Pd.DataFrame) (r : Pd.row) :
  health_log_file (disk b) = Some rows ->
  Pd.read_csv rows = Some df ->
  In r rows ->
  Pd.is_text (Pd.severity r) = true ->
  Pd.is_na (Pd.symptoms r) = false ->
  get_insights b =
    Some (mk_bot (symptoms_db b) (disk b) (Raised Py.TypeError),
          Print "Health Insights:" :: common_symptoms df).
Proof.
  intros Hlog Hdf Hr Htext Hkey.
  assert (Hne : rows <> []) by (intros ->; contradiction).
  unfold get_insights.
  rewrite Hlog, Hdf, (read_csv_not_empty rows df Hdf Hne).
  assert (Hcols :
    exists keys,
      Pd.col_symptoms df = keys /\
      Forall2 loads (map Pd.symptoms rows) (Pd.values keys) /\
      Pd.col_severity df
        = Pd.mk_series Pd.object
            (map Pd.object_value (map Pd.severity rows))).
  { unfold Pd.read_csv in Hdf.
    destruct (Pd.read_col (map Pd.date rows)); [|discriminate].
    destruct (Pd.read_col (map Pd.symptoms rows)) as [ks|] eqn:Es;
      [|discriminate].
    destruct (Pd.read_col (map Pd.severity rows)) as [v|] eqn:Ev;
      [|discriminate].
    destruct (Pd.read_col (map Pd.remedies_suggested rows)); [|discriminate].
    inversion Hdf; subst; simpl.
    exists ks. split; [reflexivity|]. split; [now apply read_col_loads|].
    apply read_col_how in Ev.
    destruct Ev as [(zs & Hz & _)|[(Hnil & _)|(_ & ->)]]; [| |reflexivity].
    - apply all_ints_no_text in Hz.
      assert (Hex : existsb Pd.is_text (map Pd.severity rows) = true).
      { apply existsb_exists. exists (Pd.severity r).
        split; [now apply in_map|exact Htext]. }
      congruence.
    - destruct rows; [contradiction|discriminate]. }
  destruct Hcols as (keys & Hkeys & Hloads & Hsev).
  unfold Pd.groupby_mean. rewrite Hsev, Hkeys. cbn [Pd.dt Pd.values].
  rewrite map_map.
  destruct (loaded_pair Pd.symptoms
              (fun x => Pd.object_value (Pd.severity x))
              rows (Pd.values keys) r Hloads Hr) as (k & Hk & Hpair).
  assert (Hnotna : Pd.notna k = true).
  { destruct Hk as [->|[(z & _ & ->)|(Hna & _)]]; try reflexivity.
    congruence. }
  replace (existsb _ _) with true; [reflexivity|].
  symmetry. apply existsb_exists. exists k. split.
  - apply sort_keys_In, unique_In, filter_In. split; [|exact Hnotna].
    apply in_combine_l in Hpair. exact Hpair.
  - apply existsb_exists. exists (Pd.object_value (Pd.severity r)).
    split; [now apply group_holds|].
    pose proof (is_text_not_int _ Htext) as [_ Hna].
    unfold Pd.object_value. rewrite Hna. exact Htext.
Qed.

Lemma insights_raise_on_text_severity_witness :
  get_insights
    (mk_bot default_symptoms_db
       (mk_files
          (Some [Pd.mk_row "2026-11-03 12:00:00" "fever" "high" fever_remedies])
          (Some default_symptoms_db)) Menu) =
    Some (mk_bot default_symptoms_db
            (mk_files
               (Some [Pd.mk_row "2026-11-03 12:00:00" "fever" "high"
                                fever_remedies])
               (Some default_symptoms_db)) (Raised Py.TypeError),
          Print "Health Insights:" ::
          common_symptoms
            (Pd.mk_frame
               (Pd.mk_series Pd.object [Pd.VStr "2026-11-03 12:00:00"])
               (Pd.mk_series Pd.object [Pd.VStr "fever"])
               (Pd.mk_series Pd.object [Pd.VStr "high"])
               (Pd.mk_series Pd.object [Pd.VStr fever_remedies]))).
Proof.
  apply (insights_raise_on_text_severity
           (mk_bot default_symptoms_db
              (mk_files
                 (Some [Pd.mk_row "2026-11-03 12:00:00" "fever" "high"
                                  fever_remedies])
                 (Some default_symptoms_db)) Menu)
           [Pd.mk_row "2026-11-03 12:00:00" "fever" "high" fever_remedies]
           _
           (Pd.mk_row "2026-11-03 12:00:00" "fever" "high" fever_remedies));
    try reflexivity.
  simpl. auto.
Defined.

Lemma float_div_sign (a b : Z) : 0 <= a -> 0 < b -> 0 <= fst (Py.float_div a b).
Proof.
  intros Ha Hb. unfold Py.float_div.
  destruct (a =? 0); [simpl; lia|].
  destruct (Py.scaled (Z.abs a) b (Py.quotient_exponent (Z.abs a) b))
    as [n d] eqn:E.
  cbn [fst].
  assert (0 <= n /\ 0 < d) as [Hn Hd].
  { unfold Py.scaled in E.
    destruct (0 <=? Py.quotient_exponent (Z.abs a) b) eqn:Ee;
      inversion E; subst; split; lia. }
  pose proof (rne_nonneg n d Hn Hd).
  destruct (Z.sgn_spec a) as [(_ & ->)|[(_ & ->)|(? & _)]]; lia.
Qed.

(** A mean with at most one decimal is printed exactly: when the count of
    a group divides ten times its sum, and the magnitudes of the group sum
    to less than 2^53 / 20, the tenths that [.1f] prints are the exact
    mean; for a sum that is not negative the printed text is the integer
    part of the mean, a point and its one decimal.  A symptom logged with
    the same severity every time is such a group. *)
Theorem exact_mean_is_printed_exactly (g : list Pd.value) :
  Pd.ints_of g <> [] ->
  20 * total_magnitude (Pd.ints_of g) < 2 ^ 53 ->
  Z.of_nat (List.length (Pd.ints_of g)) < 2 ^ 53 ->
  (Z.of_nat (List.length (Pd.ints_of g)) | 10 * sum (Pd.ints_of g)) ->
  signed_tenths (Pd.mean g) * Z.of_nat (List.length (Pd.ints_of g))
    = 10 * sum (Pd.ints_of g) /\
  (0 <= sum (Pd.ints_of g) ->
   Py.format_1f (Pd.mean g) =
     Py.str_of_int
       (10 * sum (Pd.ints_of g) / Z.of_nat (List.length (Pd.ints_of g)) / 10)
     ++ "." ++
     Py.str_of_int
       ((10 * sum (Pd.ints_of g) / Z.of_nat (List.length (Pd.ints_of g)))
        mod 10)).
Proof.
  intros Hne Hmag Hlen [q Hq].
  pose proof (mean_near g Hne Hmag Hlen) as Hnear.
  set (n := Z.of_nat (List.length (Pd.ints_of g))) in *.
  set (S := sum (Pd.ints_of g)) in *.
  assert (Hn : 0 < n).
  { subst n. destruct (Pd.ints_of g); [contradiction|simpl; lia]. }
  assert (Hexact : signed_tenths (Pd.mean g) = q).
  { rewrite Hq in Hnear.
    replace (signed_tenths (Pd.mean g) * n - q * n)
      with ((signed_tenths (Pd.mean g) - q) * n) in Hnear by ring.
    rewrite Z.abs_mul, (Z.abs_eq n) in Hnear by lia.
    nia. }
  split; [rewrite Hexact; lia|].
  intros Hpos.
  assert (Hsign : (fst (Pd.mean g) <? 0) = false).
  { apply Z.ltb_ge. unfold Pd.mean.
    pose proof (total_magnitude_nonneg (Pd.ints_of g)).
    rewrite kahan_exact by (simpl; lia).
    rewrite round53_small by (fold n; lia).
    apply float_div_sign; [fold S; lia|exact Hn]. }
  unfold Py.format_1f. unfold signed_tenths in Hexact.
  rewrite Hsign in *.
  replace (Py.tenths (Pd.mean g)) with q by lia.
  rewrite Hq, Z.div_mul by lia. reflexivity.
Qed.

Lemma exact_mean_is_printed_exactly_witness :
  signed_tenths (Pd.mean [Pd.VInt 1; Pd.VInt 2; Pd.VInt 2; Pd.VInt 5])
  * Z.of_nat
      (List.length (Pd.ints_of [Pd.VInt 1; Pd.VInt 2; Pd.VInt 2; Pd.VInt 5]))
    = 10 * sum (Pd.ints_of [Pd.VInt 1; Pd.VInt 2; Pd.VInt 2; Pd.VInt 5]) /\
  (0 <= sum (Pd.ints_of [Pd.VInt 1; Pd.VInt 2; Pd.VInt 2; Pd.VInt 5]) ->
   Py.format_1f (Pd.mean [Pd.VInt 1; Pd.VInt 2; Pd.VInt 2; Pd.VInt 5]) =
     Py.str_of_int
       (10 * sum (Pd.ints_of [Pd.VInt 1; Pd.VInt 2; Pd.VInt 2; Pd.VInt 5])
        / Z.of_nat
            (List.length
               (Pd.ints_of [Pd.VInt 1; Pd.VInt 2; Pd.VInt 2; Pd.VInt 5]))
        / 10)
     ++ "." ++
     Py.str_of_int
       ((10 * sum (Pd.ints_of [Pd.VInt 1; Pd.VInt 2; Pd.VInt 2; Pd.VInt 5])
         / Z.of_nat
             (List.length
                (Pd.ints_of [Pd.VInt 1; Pd.VInt 2; Pd.VInt 2; Pd.VInt 5])))
        mod 10)).
Proof.
  apply (exact_mean_is_printed_exactly
           [Pd.VInt 1; Pd.VInt 2; Pd.VInt 2; Pd.VInt 5]).
  - discriminate.
  - vm_compute. reflexivity.
  - vm_compute. reflexivity.
  - exists 25. vm_compute. reflexivity.
Defined.

(** ** The order of the means *)

Lemma ascii_compare_trans (a b c : ascii) :
  Ascii.compare a b <> Gt -> Ascii.compare b c <> Gt ->
  Ascii.compare a c <> Gt /\
  (Ascii.compare a c = Eq ->
   Ascii.compare a b = Eq /\ Ascii.compare b c = Eq).
Proof.
  unfold Ascii.compare.
  destruct (N.compare_spec (N_of_ascii a) (N_of_ascii b)) as [H1|H1|H1],
           (N.compare_spec (N_of_ascii b) (N_of_ascii c)) as [H2|H2|H2],
           (N.compare_spec (N_of_ascii a) (N_of_ascii c)) as [H3|H3|H3];
    intros Hab Hbc; try congruence; try lia;
    (split; [discriminate|]); try discriminate; auto.
Qed.

Lemma string_compare_trans (s t u : string) :
  String.compare s t <> Gt -> String.compare t u <> Gt ->
  String.compare s u <> Gt.
Proof.
  revert t u. induction s as [|a s IH]; intros [|b t] [|c u]; simpl;
    try congruence.
  intros Hst Htu.
  destruct (ascii_compare_trans a b c) as [Hac Heq].
  - destruct (Ascii.compare a b); congruence.
  - destruct (Ascii.compare b c); congruence.
  - destruct (Ascii.compare a c) eqn:E; try congruence.
    destruct (Heq eq_refl) as [Hab Hbc]. rewrite Hab in Hst.
    rewrite Hbc in Htu. now apply (IH t u).
Qed.

Lemma string_leb_trans (s t u : string) :
  String.leb s t = true -> String.leb t u = true -> String.leb s u = true.
Proof.
  unfold String.leb. intros Hst Htu.
  pose proof (string_compare_trans s t u) as H.
  destruct (String.compare s t); try discriminate;
    destruct (String.compare t u); try discriminate;
    destruct (String.compare s u); auto; exfalso; apply H; congruence.
Qed.

Lemma value_leb_trans (a b c : Pd.value) :
  Pd.value_leb a b = true -> Pd.value_leb b c = true ->
  Pd.value_leb a c = true.
Proof.
  destruct a, b, c; simpl; try congruence.
  - intros H1 H2. apply Z.leb_le in H1, H2. apply Z.leb_le. lia.
  - apply string_leb_trans.
Qed.

Lemma value_leb_total (a b : Pd.value) :
  Pd.notna a = true -> Pd.notna b = true ->
  Pd.value_leb a b = true \/ Pd.value_leb b a = true.
Proof.
  destruct a, b; simpl; try discriminate; auto.
  - intros _ _. destruct (Z.leb_spec z z0); [auto|right].
    apply Z.leb_le. lia.
  - intros _ _. apply String.leb_total.
Qed.

Lemma insert_key_In (k x : Pd.value) (l : list Pd.value) :
  In x (Pd.insert_key k l) -> x = k \/ In x l.
Proof.
  intros H. apply (Permutation_in _ (insert_key_perm k l)) in H.
  simpl in H. intuition.
Qed.

Lemma insert_key_sorted (k : Pd.value) (l : list Pd.value) :
  Pd.notna k = true -> Forall (fun x => Pd.notna x = true) l ->
  StronglySorted (fun a b => Pd.value_leb a b = true) l ->
  StronglySorted (fun a b => Pd.value_leb a b = true) (Pd.insert_key k l).
Proof.
  intros Hk Hl Hs. induction Hs as [|q r Hr IH Hq]; simpl.
  - constructor; constructor.
  - inversion Hl as [|? ? Hnq Hnr]; subst.
    destruct (Pd.value_leb k q) eqn:E.
    + constructor; [now constructor|].
      constructor; [exact E|].
      apply Forall_forall. intros x Hx.
      apply (value_leb_trans k q x E).
      rewrite Forall_forall in Hq. now apply Hq.
    + constructor; [now apply IH|].
      apply Forall_forall. intros x Hx.
      apply insert_key_In in Hx. destruct Hx as [->|Hx].
      * destruct (value_leb_total k q Hk Hnq); congruence.
      * rewrite Forall_forall in Hq. now apply Hq.
Qed.

Lemma sort_keys_sorted (l : list Pd.value) :
  Forall (fun x => Pd.notna x = true) l ->
  StronglySorted (fun a b => Pd.value_leb a b = true) (Pd.sort_keys l).
Proof.
  induction 1 as [|k l Hk Hl IH]; simpl; [constructor|].
  apply insert_key_sorted; auto.
  apply Forall_forall. intros x Hx.
  apply (proj1 (sort_keys_In x l)) in Hx.
  rewrite Forall_forall in Hl. now apply Hl.
Qed.

(** When [get_insights] gets as far as the means, it lists them in the
    order of the symptom names, numbers before texts, numbers by value and
    texts by code point, whatever the order of the rows in the log: every
    line comes before the lines of all larger names. *)
Theorem means_listed_in_name_order (b b' : bot) (rows : list Pd.row)
  (df : Pd.DataFrame) (out : list output) :
  health_log_file (disk b) = Some rows ->
  rows <> [] ->
  Pd.read_csv rows = Some df ->
  get_insights b = Some (b', out) ->
  at_ b' = Pause ->
  exists avg,
    out = (Print "Health Insights:" :: common_symptoms df
           ++ average_severity avg)%list /\
    StronglySorted (fun a c => Pd.value_leb a c = true) (map fst avg).
Proof.
  intros Hlog Hne Hdf Hrun Hat. unfold get_insights in Hrun.
  rewrite Hlog, Hdf, (read_csv_not_empty rows df Hdf Hne) in Hrun.
  unfold Pd.groupby_mean in Hrun.
  destruct (Pd.dt (Pd.col_severity df)).
  - unfold returned in Hrun. inversion Hrun; subst. eexists.
    split; [reflexivity|].
    rewrite map_map. cbn [fst]. rewrite map_id.
    apply sort_keys_sorted, Forall_forall. intros x Hx.
    apply unique_In, filter_In in Hx. tauto.
  - destruct (existsb _ _); [|discriminate].
    unfold raised in Hrun. inversion Hrun; subst. discriminate.
Qed.

Lemma means_listed_in_name_order_witness :
  exists avg,
    [Print "Health Insights:"; Print "Most Common Symptoms:";
     Print "- headache: 1 times"; Print "- fever: 1 times";
     Print "Average Severity by Symptom:";
     Print "- fever: 4.0/5"; Print "- headache: 2.0/5"] =
      (Print "Health Insights:" ::
       common_symptoms
         (Pd.mk_frame
            (Pd.mk_series Pd.object
               [Pd.VStr "2026-11-03 12:00:00"; Pd.VStr "2026-11-03 12:00:01"])
            (Pd.mk_series Pd.object [Pd.VStr "headache"; Pd.VStr "fever"])
            (Pd.mk_series Pd.int64 [Pd.VInt 2; Pd.VInt 4])
            (Pd.mk_series Pd.object
               [Pd.VStr headache_remedies; Pd.VStr fever_remedies]))
       ++ average_severity avg)%list /\
    StronglySorted (fun a c => Pd.value_leb a c = true) (map fst avg).
Proof.
  apply (means_listed_in_name_order
           (mk_bot default_symptoms_db
              (mk_files
                 (Some [Pd.mk_row "2026-11-03 12:00:00" "headache" "2"
                                  headache_remedies;
                        Pd.mk_row "2026-11-03 12:00:01" "fever" "4"
                                  fever_remedies])
                 (Some default_symptoms_db)) Menu)
           (mk_bot default_symptoms_db
              (mk_files
                 (Some [Pd.mk_row "2026-11-03 12:00:00" "headache" "2"
                                  headache_remedies;
                        Pd.mk_row "2026-11-03 12:00:01" "fever" "4"
                                  fever_remedies])
                 (Some default_symptoms_db)) Pause)
           [Pd.mk_row "2026-11-03 12:00:00" "headache" "2" headache_remedies;
            Pd.mk_row "2026-11-03 12:00:01" "fever" "4" fever_remedies]);
    try reflexivity.
  discriminate.
Defined.

(** ** Leaving the program *)

(** From the menu, from the pause and from the symptom prompt the program
    can always be left in at most three lines, with exit status 0, the
    farewell as the last thing printed, and the files as they were.  (At
    the severity prompt every answer either writes a row or ends the
    process with an exception.) *)
Theorem exit_within_three_lines (b : bot) (now : Py.datetime) :
  at_ b = Menu \/ at_ b = Pause \/ at_ b = SymptomNumber ->
  exists out,
    run b (map (fun line => (line, now)) (way_out (at_ b)))
      = Some (mk_bot (symptoms_db b) (disk b) (Exited 0), out) /\
    final out = Some (Print "Take care! Goodbye!").
Proof.
  destruct b as [d fs c]. cbn [at_ symptoms_db disk].
  intros [-> | [-> | ->]]; eexists; split; reflexivity.
Qed.

Lemma exit_within_three_lines_witness :
  exists out,
    run (mk_bot default_symptoms_db (mk_files (Some []) None) SymptomNumber)
        (map (fun line => (line, noon))
             (way_out
                (at_ (mk_bot default_symptoms_db (mk_files (Some []) None)
                             SymptomNumber))))
      = Some (mk_bot
                (symptoms_db
                   (mk_bot default_symptoms_db (mk_files (Some []) None)
                           SymptomNumber))
                (disk (mk_bot default_symptoms_db (mk_files (Some []) None)
                              SymptomNumber))
                (Exited 0), out) /\
    final out = Some (Print "Take care! Goodbye!").
Proof.
  apply (exit_within_three_lines
           (mk_bot default_symptoms_db (mk_files (Some []) None)
                   SymptomNumber) noon).
  right. right. reflexivity.
Defined.

(** ** The history *)

Lemma read_csv_loads (rows : list Pd.row) (df : Pd.DataFrame) :
  Pd.read_csv rows = Some df ->
  Forall2 loads (map Pd.date rows) (Pd.values (Pd.col_date df)) /\
  Forall2 loads (map Pd.symptoms rows) (Pd.values (Pd.col_symptoms df)) /\
  Forall2 loads (map Pd.severity rows) (Pd.values (Pd.col_severity df)) /\
  Forall2 loads (map Pd.remedies_suggested rows)
          (Pd.values (Pd.col_remedies df)).
Proof.
  unfold Pd.read_csv.
  destruct (Pd.read_col (map Pd.date rows)) as [d|] eqn:Ed; [|discriminate].
  destruct (Pd.read_col (map Pd.symptoms rows)) as [s|] eqn:Es;
    [|discriminate].
  destruct (Pd.read_col (map Pd.severity rows)) as [v|] eqn:Ev;
    [|discriminate].
  destruct (Pd.read_col (map Pd.remedies_suggested rows)) as [r|] eqn:Er;
    [|discriminate].
  intros H. inversion H; subst; simpl.
  auto using read_col_loads.
Qed.

(** On a log of the pandas fragment, option 2 of the menu leaves the files
    alone and goes to the pause.  On a log without rows it prints the
    notice; otherwise it prints the header and one frame that holds every
    row of the file, in the order of the file: each column has one value
    per row, and the value is the field's text, the integer it denotes, or
    the missing value for a marker; a field that is text in every reading
    is shown as itself. *)
Theorem history_shows_every_row (b : bot) (rows : list Pd.row)
  (now : Py.datetime) :
  at_ b = Menu ->
  health_log_file (disk b) = Some rows ->
  in_fragment rows = true ->
  exists df out,
    Pd.read_csv rows = Some df /\
    step b "2" now = Some (mk_bot (symptoms_db b) (disk b) Pause, out) /\
    (rows = [] -> out = [Print "No entries in health log yet."]) /\
    (rows <> [] -> out = [Print "Your Health History:"; PrintFrame df]) /\
    Forall2 shown (map Pd.date rows) (Pd.values (Pd.col_date df)) /\
    Forall2 shown (map Pd.symptoms rows) (Pd.values (Pd.col_symptoms df)) /\
    Forall2 shown (map Pd.severity rows) (Pd.values (Pd.col_severity df)) /\
    Forall2 shown (map Pd.remedies_suggested rows)
            (Pd.values (Pd.col_remedies df)).
Proof.
  intros Hat Hlog Hfrag. unfold in_fragment in Hfrag.
  destruct (Pd.read_csv rows) as [df|] eqn:Hdf; [|discriminate].
  assert (Hshown : forall cells vs,
             Forall2 loads cells vs -> Forall2 shown cells vs).
  { intros cells vs H. induction H; constructor; auto.
    split; [assumption|]. now apply loads_text. }
  unfold step. rewrite Hat.
  change (String.eqb "2" "1") with false.
  change (String.eqb "2" "2") with true. cbv iota.
  unfold view_history, returned. rewrite Hlog, Hdf.
  destruct (read_csv_loads _ _ Hdf) as (L1 & L2 & L3 & L4).
  exists df. destruct rows as [|r rows].
  - inversion Hdf; subst. eexists. split; [reflexivity|].
    split; [reflexivity|]. split; [reflexivity|].
    split; [intros H; now elim H|]. simpl. repeat split; constructor.
  - rewrite (read_csv_not_empty _ _ Hdf) by discriminate.
    eexists. split; [reflexivity|]. split; [reflexivity|].
    split; [discriminate|]. split; [reflexivity|]. auto 10.
Qed.

Lemma history_shows_every_row_witness :
  exists df out,
    Pd.read_csv
      [Pd.mk_row "2026-11-03 12:00:00" "fever" "04" fever_remedies] = Some df /\
    step (mk_bot default_symptoms_db
            (mk_files
               (Some [Pd.mk_row "2026-11-03 12:00:00" "fever" "04"
                                fever_remedies])
               (Some default_symptoms_db)) Menu) "2" noon
      = Some (mk_bot default_symptoms_db
                (mk_files
                   (Some [Pd.mk_row "2026-11-03 12:00:00" "fever" "04"
                                    fever_remedies])
                   (Some default_symptoms_db)) Pause, out) /\
    ([Pd.mk_row "2026-11-03 12:00:00" "fever" "04" fever_remedies] = [] ->
     out = [Print "No entries in health log yet."]) /\
    ([Pd.mk_row "2026-11-03 12:00:00" "fever" "04" fever_remedies] <> [] ->
     out = [Print "Your Health History:"; PrintFrame df]) /\
    Forall2 shown ["2026-11-03 12:00:00"] (Pd.values (Pd.col_date df)) /\
    Forall2 shown ["fever"] (Pd.values (Pd.col_symptoms df)) /\
    Forall2 shown ["04"] (Pd.values (Pd.col_severity df)) /\
    Forall2 shown [fever_remedies] (Pd.values (Pd.col_remedies df)).
Proof.
  apply (history_shows_every_row
           (mk_bot default_symptoms_db
              (mk_files
                 (Some [Pd.mk_row "2026-11-03 12:00:00" "fever" "04"
                                  fever_remedies])
                 (Some default_symptoms_db)) Menu)
           [Pd.mk_row "2026-11-03 12:00:00" "fever" "04" fever_remedies]
           noon); reflexivity.
Defined.

(** The history of the witness, computed: the rating 04 is shown as the
    integer 4. *)
Example history_of_one_row :
  step (mk_bot default_symptoms_db
          (mk_files
             (Some [Pd.mk_row "2026-11-03 12:00:00" "fever" "04"
                              fever_remedies])
             (Some default_symptoms_db)) Menu) "2" noon
    = Some (mk_bot default_symptoms_db
              (mk_files
                 (Some [Pd.mk_row "2026-11-03 12:00:00" "fever" "04"
                                  fever_remedies])
                 (Some default_symptoms_db)) Pause,
            [Print "Your Health History:";
             PrintFrame
               (Pd.mk_frame
                  (Pd.mk_series Pd.object [Pd.VStr "2026-11-03 12:00:00"])
                  (Pd.mk_series Pd.object [Pd.VStr "fever"])
                  (Pd.mk_series Pd.int64 [Pd.VInt 4])
                  (Pd.mk_series Pd.object [Pd.VStr fever_remedies]))]).
Proof. reflexivity. Qed.

(** The notices for a missing log are never printed in a session: the log
    is created before the first prompt and nothing removes it, so in every
    state that a session reaches [view_history] and [get_insights] pass
    their first test. *)
Theorem missing_log_notices_are_dead (fs : files)
  (typed : list (string * Py.datetime)) (b0 b : bot) (o out : list output) :
  start fs = Some (b0, o) ->
  run b0 typed = Some (b, out) ->
  (forall b' out', view_history b = Some (b', out') ->
                   ~ In (Print "No health history found.") out') /\
  (forall b' out', get_insights b = Some (b', out') ->
                   ~ In (Print "No data available for insights.") out').
Proof.
  intros Hstart Hrun.
  assert (Hsound : sound b0).
  { unfold start, load_symptoms_database, initialize_files in Hstart.
    simpl in Hstart.
    destruct (symptoms_db_file fs); inversion Hstart; subst;
      repeat split; simpl; try discriminate;
      destruct (health_log_file fs); discriminate. }
  destruct (run_sound _ _ _ _ Hsound Hrun) as (Hlog & _ & _).
  destruct (health_log_file (disk b)) as [rows|] eqn:E; [|contradiction].
  split; intros b' out'.
  - unfold view_history, returned. rewrite E.
    destruct (Pd.read_csv rows) as [df|]; [|discriminate].
    destruct (Pd.empty df); intros H; inversion H; subst; simpl;
      intuition discriminate.
  - unfold get_insights, returned, raised. rewrite E.
    destruct (Pd.read_csv rows) as [df|]; [|discriminate].
    destruct (Pd.empty df).
    { intros H; inversion H; subst; simpl; intuition discriminate. }
    assert (Hhead : ~ In (Print "No data available for insights.")
                         (Print "Health Insights:" :: common_symptoms df)).
    { simpl. intros [H|[H|H]]; try discriminate.
      apply in_map_iff in H. destruct H as (p & H & _). discriminate. }
    destruct (Pd.groupby_mean _ _) as [[avg|e]|]; [| |discriminate];
      intros H; inversion H; subst; [|exact Hhead].
    change (~ In (Print "No data available for insights.")
               ((Print "Health Insights:" :: common_symptoms df)
                ++ average_severity avg)).
    intros Hin. apply in_app_or in Hin. destruct Hin as [Hin|Hin];
      [now apply Hhead|].
    simpl in Hin. destruct Hin as [Hin|Hin]; [discriminate|].
    apply in_map_iff in Hin. destruct Hin as (p & Hp & _). discriminate.
Qed.

Lemma missing_log_notices_are_dead_witness :
  (forall b' out',
      view_history (mk_bot default_symptoms_db (initialize_files clean) Pause)
        = Some (b', out') ->
      ~ In (Print "No health history found.") out') /\
  (forall b' out',
      get_insights (mk_bot default_symptoms_db (initialize_files clean) Pause)
        = Some (b', out') ->
      ~ In (Print "No data available for insights.") out').
Proof.
  apply (missing_log_notices_are_dead clean [("2", noon)]
           (mk_bot default_symptoms_db (initialize_files clean) Menu)
           (mk_bot default_symptoms_db (initialize_files clean) Pause)
           display_menu [Print "No entries in health log yet."]);
    reflexivity.
Defined.
